(** * lm_data_collector: the helpers of the layer collector

    A shallow embedding of [helpers.py]:
    - [layers_to_load_by_memory], the greedy scheduler that decides how many
      consecutive layers fit a memory budget;
    - [load_shard_tensor], the loader that resolves a tensor name to its
      shard file and reads it;
    - [update_causal_mask], which asks the transformers library for the
      causal mask of an input unless the library says it can be ignored.

    Python integers are unbounded, so they are [Z].  The size table
    [layer_size_cache] is annotated [List[str]] but holds the integer layer
    sizes the loop subtracts from the budget.  A Python list is a Rocq
    list read through [py_getitem], which implements Python's subscript
    (negative indices count from the end, anything else out of range raises
    [IndexError]).  A Python dict with string keys is a [gmap string _].
    Exceptions and side effects are threaded through a small state-and-error
    monad: the state records what the code touched (the list subscripts it
    evaluated, the files it opened). *)

From Stdlib Require Import ZArith Lia.
From stdpp Require Import gmap strings list.
From Equations Require Import Equations.

Local Open Scope Z_scope.

(** ** Exceptions, results and the monad *)

Inductive exn : Type :=
| IndexError
| ValueError (msg : string)
| FileNotFoundError (path : string)
| SafetensorError (what : string)
| KeyError (key : string)
| AttributeError (name : string).

Inductive result (A : Type) : Type :=
| Ok (a : A)
| Raise (e : exn).
Arguments Ok {A} a.
Arguments Raise {A} e.

Definition M (S A : Type) : Type := S -> S * result A.

Definition ret {S A} (a : A) : M S A := fun s => (s, Ok a).

Definition raise {S A} (e : exn) : M S A := fun s => (s, Raise e).

Definition bind {S A B} (m : M S A) (k : A -> M S B) : M S B :=
  fun s =>
    match m s with
    | (s', Ok a) => k a s'
    | (s', Raise e) => (s', Raise e)
    end.

Declare Scope py_scope.
Delimit Scope py_scope with py.
Notation "'let*' x ':=' m 'in' k" := (bind m (fun x => k))
  (at level 10, x name, m at level 100, k at level 200) : py_scope.
Local Open Scope py_scope.

(** ** Python list subscript *)

(** [l[i]] on a Python list: [0 <= i < len(l)] reads position [i],
    [-len(l) <= i < 0] reads position [len(l) + i], everything else is an
    [IndexError] (here [None]). *)
Definition py_getitem (l : list Z) (i : Z) : option Z :=
  let n := Z.of_nat (length l) in
  if 0 <=? i then l !! Z.to_nat i
  else if - n <=? i then l !! Z.to_nat (n + i)
  else None.

(** The subscript as the code runs it: the index is appended to the log of
    evaluated subscripts, then the element is returned or [IndexError] is
    raised. *)
Definition getitem (l : list Z) (i : Z) : M (list Z) Z :=
  fun log =>
    (log ++ [i],
     match py_getitem l i with
     | Some x => Ok x
     | None => Raise IndexError
     end).

(** ** layers_to_load_by_memory *)

(** The three local variables the loop updates. *)
Record locals : Type := Locals {
  current_layer : Z;
  free_memory : Z;
  next_layer_size : Z
}.

(** How one pass through the body of [while True] ends. *)
Inductive ctl : Type :=
| Continue (l : locals)
| Break (l : locals).

(** One pass through the loop body:
<<
        current_layer += 1
        if current_layer >= num_layers:
            break
        free_memory -= next_layer_size
        next_layer_size = layer_size_cache[current_layer]
        if free_memory - next_layer_size < 0:
            break
>> *)
Definition body (num_layers : Z) (layer_size_cache : list Z) (l : locals)
  : M (list Z) ctl :=
  let current_layer := current_layer l + 1 in
  if current_layer >=? num_layers then
    ret (Break (Locals current_layer (free_memory l) (next_layer_size l)))
  else
    let free_memory := free_memory l - next_layer_size l in
    let* next_layer_size := getitem layer_size_cache current_layer in
    if free_memory - next_layer_size <? 0 then
      ret (Break (Locals current_layer free_memory next_layer_size))
    else
      ret (Continue (Locals current_layer free_memory next_layer_size)).

Definition inspect {A} (a : A) : {b : A | a = b} := exist _ a eq_refl.

(** [while True: body].  The loop is total: a pass that continues has moved
    [current_layer] one step closer to [num_layers]. *)
Equations? while_true (num_layers : Z) (layer_size_cache : list Z)
    (l : locals) (log : list Z) : list Z * result locals
    by wf (Z.to_nat (num_layers - current_layer l)) lt :=
  while_true num_layers layer_size_cache l log
    with inspect (body num_layers layer_size_cache l log) := {
    | exist _ (log', Ok (Continue l')) _ =>
        while_true num_layers layer_size_cache l' log';
    | exist _ (log', Ok (Break l')) _ => (log', Ok l');
    | exist _ (log', Raise e) _ => (log', Raise e) }.
Proof.
  revert e. unfold body, bind, getitem, ret.
  destruct (current_layer l + 1 >=? num_layers) eqn:Hge; [discriminate|].
  destruct (py_getitem layer_size_cache (current_layer l + 1)); [|discriminate].
  destruct (_ <? 0); [discriminate|].
  intros [= <- <-]. simpl. lia.
Qed.

(** The function itself. *)
Definition layers_to_load_by_memory
    (start_layer max_memory num_layers : Z) (layer_size_cache : list Z)
  : M (list Z) Z :=
  let current_layer0 := start_layer in
  let free_memory0 := max_memory in
  let* next_layer_size0 := getitem layer_size_cache current_layer0 in
  let* l := while_true num_layers layer_size_cache
              (Locals current_layer0 free_memory0 next_layer_size0) in
  let end_layer := current_layer l - 1 in
  ret end_layer.

(** What a call returns, and which subscripts it evaluated. *)
Definition returned (start_layer max_memory num_layers : Z)
    (layer_size_cache : list Z) : result Z :=
  snd (layers_to_load_by_memory start_layer max_memory num_layers
         layer_size_cache []).

Definition subscripts (start_layer max_memory num_layers : Z)
    (layer_size_cache : list Z) : list Z :=
  fst (layers_to_load_by_memory start_layer max_memory num_layers
         layer_size_cache []).

(** ** The layers a caller loads *)

(** The answer [end_layer] names the last layer of the window: the collector
    loads the layers from [start_layer] to [end_layer], both included
    ([load_layer_set(1, 2)] is two layers and [load_layer_set(0, 15)] the
    whole sixteen-layer model in [test.py]).  As a half-open range this is
    [[start_layer, end_layer + 1)], and [end_layer + 1] is the value of
    [current_layer] when the loop stops. *)
Definition layer_window (start_layer end_layer : Z) : list Z :=
  seqZ start_layer (end_layer + 1 - start_layer).

(** ** The scheduler as the design document words it *)

(** [sizes[i]] for a layer index [i] of the size table. *)
Definition size_at (sizes : list Z) (i s : Z) : Prop :=
  0 <= i /\ sizes !! Z.to_nat i = Some s.

(** Step 2 of the greedy forward-packing algorithm, as a relation between
    [current], [free], [next_size] at the head of the loop and the value of
    [current] when the loop stops: advance [current]; stop if it reached
    [num_layers]; subtract [next_size] from [free]; read the next size; stop
    if [free - next_size < 0]; otherwise repeat. *)
Inductive packing (num_layers : Z) (sizes : list Z) : Z -> Z -> Z -> Z -> Prop :=
| packing_end current free next_size :
    current + 1 >= num_layers ->
    packing num_layers sizes current free next_size (current + 1)
| packing_full current free next_size next_size' :
    ~ current + 1 >= num_layers ->
    size_at sizes (current + 1) next_size' ->
    (free - next_size) - next_size' < 0 ->
    packing num_layers sizes current free next_size (current + 1)
| packing_more current free next_size next_size' final :
    ~ current + 1 >= num_layers ->
    size_at sizes (current + 1) next_size' ->
    ~ (free - next_size) - next_size' < 0 ->
    packing num_layers sizes (current + 1) (free - next_size) next_size' final ->
    packing num_layers sizes current free next_size final.

(** Steps 1 to 3: initialise, run the loop, answer [current - 1]. *)
Definition greedy_forward_packing (start budget num_layers : Z)
    (sizes : list Z) (final answer : Z) : Prop :=
  exists next_size,
    size_at sizes start next_size /\
    packing num_layers sizes start budget next_size final /\
    answer = final - 1.

(** C3, as the specification states it: whenever the budget is below the size of a
    valid start layer, the window has zero or negative length. *)
Definition window_empty_when_budget_too_small
    (start_layer max_memory num_layers : Z) (layer_size_cache : list Z) : Prop :=
  forall s0 end_layer,
    py_getitem layer_size_cache start_layer = Some s0 ->
    max_memory < s0 ->
    returned start_layer max_memory num_layers layer_size_cache = Ok end_layer ->
    end_layer + 1 - start_layer <= 0 /\ layer_window start_layer end_layer = [].

(** ** load_shard_tensor *)

(** The tensor runtime and the file system are outside the repository.
    They are modelled by what the code relies on: tensors carry a payload, a
    dtype and a device; a safetensors file maps tensor names to stored
    tensors; the disk maps paths to files, which are safetensors files or
    something else.  The payload type, the dtype type, the conversion of a
    payload between dtypes, [os.path.join] and the set of device names the
    safetensors library accepts on this machine are parameters. *)
Section Loader.
Context {Payload Dtype : Type}.
Variable convert : Dtype -> Dtype -> Payload -> Payload.
Variable path_join : string -> string -> string.
Variable device_ok : string -> bool.

Record tensor : Type := Tensor {
  tensor_payload : Payload;
  tensor_dtype : Dtype;
  tensor_device : string
}.

(** A tensor as a shard file stores it. *)
Record stored : Type := Stored {
  stored_payload : Payload;
  stored_dtype : Dtype
}.

(** A file on disk: a safetensors file with its tensors, or a file the
    library cannot read as one. *)
Inductive disk_file : Type :=
| SafetensorsFile (tensors : gmap string stored)
| OtherFile.

(** The world the loader runs in: the files on disk, and the paths handed
    to [safe_open] so far, oldest first. *)
Record world : Type := World {
  disk : gmap string disk_file;
  opened : list string
}.

(** What [safe_open] returns: the opened shard and the device its tensors
    are put on. *)
Record handle : Type := Handle {
  handle_shard : gmap string stored;
  handle_device : string
}.

(** [safe_open(path, framework='pt', device=device)].  The library rejects
    a device it does not accept with [SafetensorError], a missing file with
    [FileNotFoundError] and a file that is not a safetensors file with
    [SafetensorError]; the path counts as handed to [safe_open] in every
    case. *)
Definition safe_open (path device : string) : M world handle :=
  fun w =>
    let w' := World (disk w) (opened w ++ [path]) in
    if negb (device_ok device) then (w', Raise (SafetensorError device))
    else
      match disk w !! path with
      | Some (SafetensorsFile shard) => (w', Ok (Handle shard device))
      | Some OtherFile => (w', Raise (SafetensorError path))
      | None => (w', Raise (FileNotFoundError path))
      end.

(** [shard.get_tensor(name)]. *)
Definition get_tensor (shard : handle) (name : string) : M world tensor :=
  match handle_shard shard !! name with
  | Some t =>
      ret (Tensor (stored_payload t) (stored_dtype t) (handle_device shard))
  | None => raise (SafetensorError name)
  end.

(** [t.to(dtype)]. *)
Definition to (t : tensor) (dtype : Dtype) : tensor :=
  Tensor (convert (tensor_dtype t) dtype (tensor_payload t)) dtype
    (tensor_device t).

(** [key in d] and [d[key]] on a dict. *)
Definition dict_contains (d : gmap string string) (key : string) : bool :=
  bool_decide (is_Some (d !! key)).

Definition dict_getitem (d : gmap string string) (key : string)
  : M world string :=
  match d !! key with
  | Some v => ret v
  | None => raise (KeyError key)
  end.

Definition load_shard_tensor (layer_file_cache : gmap string string)
    (model_dir layer_name device : string) (dtype : Dtype)
  : M world tensor :=
  if negb (dict_contains layer_file_cache layer_name) then
    raise (ValueError
             ("Could not find layer file for layer " +:+ layer_name))
  else
    let* file := dict_getitem layer_file_cache layer_name in
    let* shard := safe_open (path_join model_dir file) device in
    let* t := get_tensor shard layer_name in
    ret (to t dtype).

End Loader.

(** A concrete instance, used to run the loader on examples: the dtypes the
    tests pass, integer payloads that conversion leaves alone,
    [os.path.join] on POSIX for two components, and a machine on which the
    only device is the CPU. *)
Inductive torch_dtype : Type := float16 | bfloat16 | float32.

Definition cpu_only (device : string) : bool := bool_decide (device = "cpu").

Definition keep_payload (_ _ : torch_dtype) (p : list Z) : list Z := p.

Definition ends_with_sep (a : string) : bool :=
  match String.get (Nat.pred (String.length a)) a with
  | Some c => bool_decide (String c EmptyString = "/")
  | None => false
  end.

Definition posix_join (a b : string) : string :=
  if String.prefix "/" b then b
  else if bool_decide (a = EmptyString) || ends_with_sep a then a +:+ b
  else a +:+ "/" +:+ b.

Definition example_index : gmap string string :=
  {[ "model.norm.weight" := "model-00002-of-00002.safetensors" ]}.

Definition example_norm : stored (Payload := list Z) (Dtype := torch_dtype) :=
  Stored [3; 1; 4] float32.

Definition example_world : world :=
  World {[ "models/Llama3.2-1b-instruct/model-00002-of-00002.safetensors" :=
             SafetensorsFile {[ "model.norm.weight" := example_norm ]} ]}
        [].

(** ** The memory a window takes *)

Definition Zsum (l : list Z) : Z := foldr Z.add 0 l.

(** The size the table records for layer [i] (for [0 <= i]; a layer the
    table does not list counts for nothing). *)
Definition size_of_layer (layer_size_cache : list Z) (i : Z) : Z :=
  default 0 (layer_size_cache !! Z.to_nat i).

(** The total size of the layers from [start_layer] to [end_layer], both
    included. *)
Definition window_size (layer_size_cache : list Z)
    (start_layer end_layer : Z) : Z :=
  Zsum (size_of_layer layer_size_cache <$> layer_window start_layer end_layer).

(** ** update_causal_mask *)

(** The two functions of the transformers library the code calls are
    parameters, and so are the fields of the config and of the tensors the
    code reads.  The config need not have a [sliding_window] attribute (the
    declared [LlamaConfig] has none): reading it then raises
    [AttributeError].  The library's check whether the mask can be ignored
    may raise an exception of its own.  The state of the monad logs the
    calls made to the library, with the integer arguments of the mask
    builder. *)
Inductive library_call : Type :=
| IgnoreCausalMaskSdpa
| Prepare4dCausalAttentionMask (sequence_length target_length batch_size : Z).

Section CausalMask.
Context {Config Sliding Tensor Dtype Device Mask : Type}.
Variable attn_implementation : Config -> string.
Variable sliding_window : Config -> option Sliding.
Variable shape : Tensor -> list Z.
Variable dtype_of : Tensor -> Dtype.
Variable device_of : Tensor -> Device.
Variable ignore_causal_mask_sdpa :
  option Mask -> Tensor -> Z -> Sliding -> bool -> result bool.
Variable prepare_4d_causal_attention_mask_with_cache_position :
  option Mask -> Z -> Z -> Dtype -> Device -> Tensor -> Z -> Config ->
  option unit -> Mask.

(** [t.shape[i]]: a [torch.Size] is subscripted like a tuple. *)
Definition shape_item (t : Tensor) (i : Z) : M (list library_call) Z :=
  match py_getitem (shape t) i with
  | Some n => ret n
  | None => raise IndexError
  end.

(** [config.sliding_window]. *)
Definition getattr_sliding_window (config : Config)
  : M (list library_call) Sliding :=
  match sliding_window config with
  | Some sliding => ret sliding
  | None => raise (AttributeError "sliding_window")
  end.

Definition call_ignore_causal_mask_sdpa (attention_mask : option Mask)
    (inputs_embeds : Tensor) (past_key_values_length : Z)
    (sliding : Sliding) (is_training : bool) : M (list library_call) bool :=
  fun calls =>
    (calls ++ [IgnoreCausalMaskSdpa],
     ignore_causal_mask_sdpa attention_mask inputs_embeds
       past_key_values_length sliding is_training).

Definition call_prepare_4d_causal_attention_mask
    (attention_mask : option Mask) (sequence_length target_length : Z)
    (dtype : Dtype) (device : Device) (cache_position : Tensor)
    (batch_size : Z) (config : Config) (past_key_values : option unit)
  : M (list library_call) Mask :=
  fun calls =>
    (calls ++ [Prepare4dCausalAttentionMask sequence_length target_length
                 batch_size],
     Ok (prepare_4d_causal_attention_mask_with_cache_position attention_mask
           sequence_length target_length dtype device cache_position
           batch_size config past_key_values)).

(** The function returns [None] or a mask. *)
Definition update_causal_mask (config : Config)
    (input_tensor cache_position : Tensor)
  : M (list library_call) (option Mask) :=
  let build_mask : M (list library_call) (option Mask) :=
    let* sequence_length := shape_item input_tensor 1 in
    let* target_length := shape_item input_tensor 1 in
    let* batch_size := shape_item input_tensor 0 in
    let* mask :=
      call_prepare_4d_causal_attention_mask None sequence_length
        target_length (dtype_of input_tensor) (device_of input_tensor)
        cache_position batch_size config None in
    ret (Some mask) in
  if String.eqb (attn_implementation config) "sdpa" then
    let* sliding := getattr_sliding_window config in
    let* ignore :=
      call_ignore_causal_mask_sdpa None input_tensor 0 sliding false in
    if ignore then ret None else build_mask
  else build_mask.

End CausalMask.

(** ** Reasoning about one pass and about the loop *)

Lemma body_Continue num_layers layer_size_cache l log log' l' :
  body num_layers layer_size_cache l log = (log', Ok (Continue l')) ->
  current_layer l' = current_layer l + 1 /\ current_layer l + 1 < num_layers.
Proof.
  unfold body, bind, getitem, ret.
  destruct (current_layer l + 1 >=? num_layers) eqn:Hge; [discriminate|].
  destruct (py_getitem layer_size_cache (current_layer l + 1)); [|discriminate].
  destruct (_ <? 0); [discriminate|].
  intros [= <- <-]. simpl. lia.
Qed.

Lemma while_true_body num_layers layer_size_cache l log :
  while_true num_layers layer_size_cache l log =
  match body num_layers layer_size_cache l log with
  | (log', Ok (Continue l')) => while_true num_layers layer_size_cache l' log'
  | (log', Ok (Break l')) => (log', Ok l')
  | (log', Raise e) => (log', Raise e)
  end.
Proof.
  simp while_true.
  destruct (inspect (body num_layers layer_size_cache l log)) as [[log' [[l'|l']|e]] H].
  all: simpl; rewrite H; reflexivity.
Qed.

(** The four ways a pass through the body can end. *)
Lemma body_cases num_layers layer_size_cache l log :
  let c := current_layer l + 1 in
  let f := free_memory l - next_layer_size l in
  (c >= num_layers /\
   body num_layers layer_size_cache l log =
     (log, Ok (Break (Locals c (free_memory l) (next_layer_size l)))))
  \/ (c < num_layers /\ py_getitem layer_size_cache c = None /\
      body num_layers layer_size_cache l log = (log ++ [c], Raise IndexError))
  \/ (exists x, c < num_layers /\ py_getitem layer_size_cache c = Some x /\
        f - x < 0 /\
        body num_layers layer_size_cache l log =
          (log ++ [c], Ok (Break (Locals c f x))))
  \/ (exists x, c < num_layers /\ py_getitem layer_size_cache c = Some x /\
        0 <= f - x /\
        body num_layers layer_size_cache l log =
          (log ++ [c], Ok (Continue (Locals c f x)))).
Proof.
  intros c f. unfold body, bind, getitem, ret. fold c. fold f.
  destruct (c >=? num_layers) eqn:Hge.
  - left. split; [lia | reflexivity].
  - right. destruct (py_getitem layer_size_cache c) as [x|] eqn:Hx.
    + right. destruct (f - x <? 0) eqn:Hlt.
      * left. exists x. repeat split; [lia | lia].
      * right. exists x. repeat split; [lia | lia].
    + left. repeat split. lia.
Qed.

(** Induction along the passes of the loop: to prove [P] of the locals and
    the log at the head of the loop, one may assume it after every pass that
    continues. *)
Lemma loop_ind num_layers layer_size_cache (P : locals -> list Z -> Prop) :
  (forall l log,
      (forall l' log',
          body num_layers layer_size_cache l log = (log', Ok (Continue l')) ->
          P l' log') ->
      P l log) ->
  forall l log, P l log.
Proof.
  intros step l.
  remember (Z.to_nat (num_layers - current_layer l)) as k eqn:Hk.
  revert l Hk. induction k as [k IH] using lt_wf_ind.
  intros l Hk log. apply step. intros l' log' Hbody.
  apply body_Continue in Hbody as [Hc Hlt].
  apply (IH (Z.to_nat (num_layers - current_layer l'))); [lia | reflexivity].
Qed.

(** The subscript succeeds exactly on Python's valid indices. *)
Lemma py_getitem_Some (l : list Z) (i : Z) :
  - Z.of_nat (length l) <= i < Z.of_nat (length l) ->
  exists x, py_getitem l i = Some x.
Proof.
  intros Hi. unfold py_getitem.
  destruct (0 <=? i) eqn:H0.
  - apply lookup_lt_is_Some. lia.
  - destruct (- Z.of_nat (length l) <=? i) eqn:H1; [|lia].
    apply lookup_lt_is_Some. lia.
Qed.

Lemma py_getitem_valid (l : list Z) (i x : Z) :
  py_getitem l i = Some x ->
  - Z.of_nat (length l) <= i < Z.of_nat (length l).
Proof.
  unfold py_getitem.
  destruct (0 <=? i) eqn:H0.
  - intros H. apply lookup_lt_Some in H. lia.
  - destruct (- Z.of_nat (length l) <=? i) eqn:H1; [|discriminate].
    intros H. apply lookup_lt_Some in H. lia.
Qed.

Lemma py_getitem_nonneg (l : list Z) (i : Z) :
  0 <= i -> py_getitem l i = l !! Z.to_nat i.
Proof. intros Hi. unfold py_getitem. destruct (0 <=? i) eqn:H0; [reflexivity | lia]. Qed.

(** Where the loop can stop: strictly past where it started, and not past
    [num_layers] unless the very first increment already is. *)
Lemma while_true_current num_layers layer_size_cache l log log' l' :
  while_true num_layers layer_size_cache l log = (log', Ok l') ->
  current_layer l < current_layer l' /\
  current_layer l' <= Z.max num_layers (current_layer l + 1).
Proof.
  revert l log log' l'.
  apply (loop_ind num_layers layer_size_cache
           (fun l log => forall log' l',
                while_true num_layers layer_size_cache l log = (log', Ok l') ->
                current_layer l < current_layer l' /\
                current_layer l' <= Z.max num_layers (current_layer l + 1))).
  intros l log IH log' l'. rewrite while_true_body.
  destruct (body_cases num_layers layer_size_cache l log)
    as [[Hc ->]|[(Hc & _ & ->)|[(x & Hc & Hx & Hf & ->)|(x & Hc & Hx & Hf & Hb)]]].
  - intros [= <- <-]. simpl. lia.
  - discriminate.
  - intros [= <- <-]. simpl. lia.
  - rewrite Hb. intros Hrun. apply (IH _ _ Hb) in Hrun. simpl in Hrun. lia.
Qed.

(** The loop only appends to the log, and every subscript it evaluates is
    strictly past the starting layer and below [num_layers]. *)
Lemma while_true_log num_layers layer_size_cache l log log' r :
  while_true num_layers layer_size_cache l log = (log', r) ->
  exists extra,
    log' = log ++ extra /\
    Forall (fun i => current_layer l < i < num_layers) extra.
Proof.
  revert l log log' r.
  apply (loop_ind num_layers layer_size_cache
           (fun l log => forall log' r,
                while_true num_layers layer_size_cache l log = (log', r) ->
                exists extra,
                  log' = log ++ extra /\
                  Forall (fun i => current_layer l < i < num_layers) extra)).
  intros l log IH log' r. rewrite while_true_body.
  destruct (body_cases num_layers layer_size_cache l log)
    as [[Hc ->]|[(Hc & _ & ->)|[(x & Hc & Hx & Hf & ->)|(x & Hc & Hx & Hf & Hb)]]].
  - intros [= <- <-]. exists []. split; [by rewrite app_nil_r | constructor].
  - intros [= <- <-]. exists [current_layer l + 1]. split; [done|].
    repeat constructor; lia.
  - intros [= <- <-]. exists [current_layer l + 1]. split; [done|].
    repeat constructor; lia.
  - rewrite Hb. intros Hrun. destruct (IH _ _ Hb _ _ Hrun) as (extra & -> & Hall).
    exists ((current_layer l + 1) :: extra). split.
    + by rewrite <- app_assoc.
    + constructor; [lia|]. simpl in Hall.
      eapply Forall_impl; [exact Hall|]. simpl. intros i Hi. lia.
Qed.

(** The loop returns normally when every index from the next layer up to
    [num_layers] is a valid subscript. *)
Lemma while_true_total num_layers layer_size_cache l log :
  - Z.of_nat (length layer_size_cache) <= current_layer l + 1 ->
  num_layers <= Z.of_nat (length layer_size_cache) ->
  exists log' l', while_true num_layers layer_size_cache l log = (log', Ok l').
Proof.
  revert l log.
  apply (loop_ind num_layers layer_size_cache
           (fun l log =>
              - Z.of_nat (length layer_size_cache) <= current_layer l + 1 ->
              num_layers <= Z.of_nat (length layer_size_cache) ->
              exists log' l',
                while_true num_layers layer_size_cache l log = (log', Ok l'))).
  intros l log IH Hlo Hhi. rewrite while_true_body.
  destruct (body_cases num_layers layer_size_cache l log)
    as [[Hc ->]|[(Hc & Hx & ->)|[(x & Hc & Hx & Hf & ->)|(x & Hc & Hx & Hf & Hb)]]].
  - eauto.
  - destruct (py_getitem_Some layer_size_cache (current_layer l + 1)) as [x Hx'];
      [lia | congruence].
  - eauto.
  - rewrite Hb. apply (IH _ _ Hb); simpl; lia.
Qed.

(** A smaller budget stops the loop no later: with the same position and the
    same pending size, if the run with more free memory returns, so does the
    run with less, and it stops at or before the other. *)
Lemma while_true_mono num_layers layer_size_cache l2 log2 :
  forall l1 log1 log2' l2',
    current_layer l1 = current_layer l2 ->
    next_layer_size l1 = next_layer_size l2 ->
    free_memory l1 <= free_memory l2 ->
    while_true num_layers layer_size_cache l2 log2 = (log2', Ok l2') ->
    exists log1' l1',
      while_true num_layers layer_size_cache l1 log1 = (log1', Ok l1') /\
      current_layer l1' <= current_layer l2'.
Proof.
  revert l2 log2.
  apply (loop_ind num_layers layer_size_cache
           (fun l2 log2 => forall l1 log1 log2' l2',
                current_layer l1 = current_layer l2 ->
                next_layer_size l1 = next_layer_size l2 ->
                free_memory l1 <= free_memory l2 ->
                while_true num_layers layer_size_cache l2 log2 = (log2', Ok l2') ->
                exists log1' l1',
                  while_true num_layers layer_size_cache l1 log1 = (log1', Ok l1') /\
                  current_layer l1' <= current_layer l2')).
  intros l2 log2 IH l1 log1 log2' l2' Hcur Hnext Hfree.
  rewrite (while_true_body _ _ l2), (while_true_body _ _ l1).
  destruct (body_cases num_layers layer_size_cache l2 log2)
    as [[Hc ->]|[(Hc & _ & ->)|[(x & Hc & Hx & Hf & ->)|(x & Hc & Hx & Hf & Hb)]]].
  - intros [= <- <-].
    destruct (body_cases num_layers layer_size_cache l1 log1)
      as [[Hc1 ->]|[(Hc1 & _)|[(y & Hc1 & _)|(y & Hc1 & _)]]]; try lia.
    eexists _, _. split; [reflexivity|]. simpl. lia.
  - discriminate.
  - intros [= <- <-].
    destruct (body_cases num_layers layer_size_cache l1 log1)
      as [[Hc1 _]|[(_ & Hy & _)|[(y & _ & Hy & _ & ->)|(y & _ & Hy & Hf1 & _)]]].
    + lia.
    + rewrite Hcur in Hy. congruence.
    + eexists _, _. split; [reflexivity|]. simpl. lia.
    + rewrite Hcur, Hx in Hy. injection Hy as <-. lia.
  - rewrite Hb. intros Hrun.
    destruct (body_cases num_layers layer_size_cache l1 log1)
      as [[Hc1 _]|[(_ & Hy & _)|[(y & _ & Hy & _ & ->)|(y & _ & Hy & Hf1 & ->)]]].
    + lia.
    + rewrite Hcur in Hy. congruence.
    + eexists _, _. split; [reflexivity|]. simpl.
      apply while_true_current in Hrun. simpl in Hrun. lia.
    + rewrite Hcur, Hx in Hy. injection Hy as <-.
      eapply (IH _ _ Hb); [| | | exact Hrun]; simpl; lia.
Qed.

(** A call returns [end_layer] exactly when the first subscript succeeds and
    the loop stops normally one layer past [end_layer]. *)
Lemma returned_Ok start_layer max_memory num_layers layer_size_cache end_layer :
  returned start_layer max_memory num_layers layer_size_cache = Ok end_layer <->
  exists s0 log' l',
    py_getitem layer_size_cache start_layer = Some s0 /\
    while_true num_layers layer_size_cache
      (Locals start_layer max_memory s0) [start_layer] = (log', Ok l') /\
    end_layer = current_layer l' - 1.
Proof.
  unfold returned, layers_to_load_by_memory, bind, getitem, ret. simpl.
  destruct (py_getitem layer_size_cache start_layer) as [s0|]; simpl.
  - destruct (while_true num_layers layer_size_cache
                (Locals start_layer max_memory s0) [start_layer])
      as [log' [l'|e]] eqn:Hrun; simpl.
    + split.
      * intros [= <-]. eauto 6.
      * intros (s & lg & l & [= <-] & Hl & ->). rewrite Hrun in Hl. by injection Hl as <- <-.
    + split; [discriminate|].
      intros (s & lg & l & [= <-] & Hl & _). rewrite Hrun in Hl. discriminate.
  - split; [discriminate|]. intros (s & lg & l & Hs & _). discriminate.
Qed.

(** Totality of the call on Python's valid start indices; the precondition
    of the specification, [0 <= start_layer < num_layers <= len], is a special
    case. *)
Lemma returned_total start_layer max_memory num_layers layer_size_cache :
  - Z.of_nat (length layer_size_cache) <= start_layer
    < Z.of_nat (length layer_size_cache) ->
  num_layers <= Z.of_nat (length layer_size_cache) ->
  exists end_layer,
    returned start_layer max_memory num_layers layer_size_cache = Ok end_layer.
Proof.
  intros Hs Hn.
  destruct (py_getitem_Some layer_size_cache start_layer Hs) as [s0 Hs0].
  destruct (while_true_total num_layers layer_size_cache
              (Locals start_layer max_memory s0) [start_layer])
    as (log' & l' & Hrun); [simpl; lia | lia |].
  exists (current_layer l' - 1). apply returned_Ok. eauto 6.
Qed.

(** The answer is never below the start layer, and is below [num_layers]
    whenever the start layer is. *)
Lemma returned_range start_layer max_memory num_layers layer_size_cache end_layer :
  returned start_layer max_memory num_layers layer_size_cache = Ok end_layer ->
  start_layer <= end_layer /\ end_layer + 1 <= Z.max num_layers (start_layer + 1).
Proof.
  intros (s0 & log' & l' & _ & Hrun & ->)%returned_Ok.
  apply while_true_current in Hrun. simpl in Hrun. lia.
Qed.

Lemma elem_of_layer_window start_layer end_layer i :
  i ∈ layer_window start_layer end_layer <-> start_layer <= i < end_layer + 1.
Proof. unfold layer_window. rewrite elem_of_seqZ. lia. Qed.

Lemma layer_window_length start_layer end_layer :
  Z.of_nat (length (layer_window start_layer end_layer)) =
  Z.max 0 (end_layer + 1 - start_layer).
Proof. unfold layer_window. rewrite length_seqZ. lia. Qed.

Lemma size_at_py_getitem sizes i s :
  0 <= i -> (size_at sizes i s <-> py_getitem sizes i = Some s).
Proof.
  intros Hi. unfold size_at. rewrite py_getitem_nonneg by exact Hi. tauto.
Qed.

Lemma while_true_packing num_layers sizes l log log' l' :
  0 <= current_layer l + 1 ->
  while_true num_layers sizes l log = (log', Ok l') ->
  packing num_layers sizes (current_layer l) (free_memory l)
    (next_layer_size l) (current_layer l').
Proof.
  revert l log log' l'.
  apply (loop_ind num_layers sizes
           (fun l log => forall log' l',
                0 <= current_layer l + 1 ->
                while_true num_layers sizes l log = (log', Ok l') ->
                packing num_layers sizes (current_layer l) (free_memory l)
                  (next_layer_size l) (current_layer l'))).
  intros l log IH log' l' Hpos. rewrite while_true_body.
  destruct (body_cases num_layers sizes l log)
    as [[Hc ->]|[(Hc & _ & ->)|[(x & Hc & Hx & Hf & ->)|(x & Hc & Hx & Hf & Hb)]]].
  - intros [= <- <-]. simpl. by apply packing_end.
  - discriminate.
  - intros [= <- <-]. simpl. apply packing_full with x; [lia | | lia].
    by apply size_at_py_getitem.
  - rewrite Hb. intros Hrun.
    apply packing_more with x; [lia | by apply size_at_py_getitem | lia |].
    apply (IH _ _ Hb) in Hrun; simpl in *; [exact Hrun | lia].
Qed.

Lemma packing_while_true num_layers sizes current free next_size final :
  packing num_layers sizes current free next_size final ->
  forall log, exists log' l',
    while_true num_layers sizes (Locals current free next_size) log = (log', Ok l') /\
    current_layer l' = final.
Proof.
  induction 1 as [c f nx Hc | c f nx nx' Hc [Hpos Hx] Hf
                 | c f nx nx' final Hc [Hpos Hx] Hf Hrest IH]; intros log.
  - rewrite while_true_body.
    destruct (body_cases num_layers sizes (Locals c f nx) log)
      as [[_ ->]|[(Hc' & _)|[(x & Hc' & _)|(x & Hc' & _)]]]; simpl in *; try lia.
    eauto.
  - rewrite while_true_body.
    rewrite <- py_getitem_nonneg in Hx by exact Hpos.
    destruct (body_cases num_layers sizes (Locals c f nx) log)
      as [[Hc' _]|[(_ & Hy & _)|[(x & _ & Hy & Hf' & ->)|(x & _ & Hy & Hf' & _)]]];
      simpl in *; try lia; try congruence; eauto.
    rewrite Hx in Hy. injection Hy as <-. lia.
  - rewrite while_true_body.
    rewrite <- py_getitem_nonneg in Hx by exact Hpos.
    destruct (body_cases num_layers sizes (Locals c f nx) log)
      as [[Hc' _]|[(_ & Hy & _)|[(x & _ & Hy & Hf' & _)|(x & _ & Hy & Hf' & ->)]]];
      simpl in *; try lia; try congruence;
      rewrite Hx in Hy; injection Hy as <-; [lia || apply IH ..].
Qed.

Lemma py_getitem_elem_of (l : list Z) (i x : Z) :
  py_getitem l i = Some x -> x ∈ l.
Proof.
  unfold py_getitem. destruct (0 <=? i).
  - apply list_elem_of_lookup_2.
  - destruct (_ <=? i); [apply list_elem_of_lookup_2 | discriminate].
Qed.

(** The subscripts a call evaluates: the start layer first, then only
    layers strictly after it and below [num_layers]. *)
Lemma subscripts_spec start_layer max_memory num_layers layer_size_cache :
  exists extra,
    subscripts start_layer max_memory num_layers layer_size_cache =
      start_layer :: extra /\
    Forall (fun i => start_layer < i < num_layers) extra.
Proof.
  unfold subscripts, layers_to_load_by_memory, bind, getitem, ret. simpl.
  destruct (py_getitem layer_size_cache start_layer) as [s0|]; simpl.
  - destruct (while_true num_layers layer_size_cache
                (Locals start_layer max_memory s0) [start_layer])
      as [log' r] eqn:Hrun.
    destruct (while_true_log _ _ _ _ _ _ Hrun) as (extra & -> & Hall).
    exists extra. split; [by destruct r | exact Hall].
  - exists []. split; [reflexivity | constructor].
Qed.

(** The first pass stops the loop when the budget is below the size of the
    start layer and the next size is positive. *)
Lemma returned_start start_layer max_memory num_layers layer_size_cache s0 :
  num_layers <= Z.of_nat (length layer_size_cache) ->
  Forall (fun s => 0 < s) layer_size_cache ->
  py_getitem layer_size_cache start_layer = Some s0 ->
  max_memory <= s0 ->
  returned start_layer max_memory num_layers layer_size_cache = Ok start_layer.
Proof.
  intros Hn Hpos Hs0 Hb. apply returned_Ok.
  pose proof (py_getitem_valid _ _ _ Hs0) as Hv.
  exists s0. rewrite while_true_body.
  destruct (body_cases num_layers layer_size_cache
              (Locals start_layer max_memory s0) [start_layer])
    as [[Hc ->]|[(Hc & Hx & _)|[(x & Hc & Hx & Hf & ->)|(x & Hc & Hx & Hf & _)]]];
    simpl in *.
  - eexists _, _. repeat split; [exact Hs0 | simpl; lia].
  - destruct (py_getitem_Some layer_size_cache (start_layer + 1)) as [x Hx'];
      [lia | congruence].
  - eexists _, _. repeat split; [exact Hs0 | simpl; lia].
  - apply py_getitem_elem_of in Hx.
    rewrite Forall_forall in Hpos. apply Hpos in Hx. lia.
Qed.

(** ** Properties of the scheduler *)

(** C1.  On layer indices ([0 <= start_layer]) the function implements the
    greedy forward-packing loop of the design document: it returns
    [end_layer] exactly when the documented loop, started from
    [current = start], [free = budget], [next_size = sizes[start]], stops
    with some final [current] and [end_layer = current - 1]; the layers the
    caller then loads are the half-open range [[start, current)]. *)
Theorem C1_implements_greedy_forward_packing
    start_layer max_memory num_layers layer_size_cache end_layer :
  0 <= start_layer ->
  returned start_layer max_memory num_layers layer_size_cache = Ok end_layer <->
  exists current,
    greedy_forward_packing start_layer max_memory num_layers layer_size_cache
      current end_layer /\
    layer_window start_layer end_layer = seqZ start_layer (current - start_layer).
Proof.
  intros Hstart. rewrite returned_Ok. split.
  - intros (s0 & log' & l' & Hs0 & Hrun & ->).
    exists (current_layer l'). split.
    + exists s0. split; [by apply size_at_py_getitem|]. split; [|reflexivity].
      apply while_true_packing in Hrun; simpl in *; [exact Hrun | lia].
    + unfold layer_window. f_equal. lia.
  - intros (current & (s0 & Hs0 & Hpack & ->) & _).
    apply size_at_py_getitem in Hs0; [|exact Hstart].
    destruct (packing_while_true _ _ _ _ _ _ Hpack [start_layer])
      as (log' & l' & Hrun & <-).
    eauto 6.
Qed.

Lemma C1_witness :
  0 <= 0 /\
  exists current,
    greedy_forward_packing 0 250 16 (replicate 16 100) current 1 /\
    layer_window 0 1 = seqZ 0 (current - 0).
Proof.
  split; [lia|].
  apply (proj1 (C1_implements_greedy_forward_packing 0 250 16 (replicate 16 100) 1
                  ltac:(lia))).
  reflexivity.
Defined.

(** C2.  Scenario A: for sixteen layers of 100 units each, start 0 and
    budget 250, the answer is layer 1, that is the two-layer window
    [[0, 2)] made of layers 0 and 1, and the documented loop stops with
    [current = 2]. *)
Theorem C2_scenario_A :
  returned 0 250 16 (replicate 16 100) = Ok 1 /\
  layer_window 0 1 = [0; 1] /\
  layer_window 0 1 = seqZ 0 (2 - 0) /\
  subscripts 0 250 16 (replicate 16 100) = [0; 1; 2].
Proof. repeat split. Qed.

(** C3 fails: two layers of 100 units and a budget of 50 give the window
    [[0, 1)], one layer long. *)
Lemma C3_counterexample :
  ~ window_empty_when_budget_too_small 0 50 2 [100; 100].
Proof.
  intros H. destruct (H 100 0) as [Hlen _]; [reflexivity | lia | reflexivity |].
  lia.
Qed.

(** C3, amended.  When the budget is below the size of a valid start layer
    (and the size table covers [num_layers] layers, all of positive size),
    the function does not special-case the condition: it answers
    [start_layer], the one-layer window [[start, start + 1)], which is also
    its answer when the budget is exactly the size of the start layer.  The
    window is never empty, so a budget that is too small has to be detected
    by comparing the budget with [sizes[start]] beforehand. *)
Theorem C3_budget_below_start_size
    start_layer max_memory num_layers layer_size_cache s0 :
  num_layers <= Z.of_nat (length layer_size_cache) ->
  Forall (fun s => 0 < s) layer_size_cache ->
  py_getitem layer_size_cache start_layer = Some s0 ->
  max_memory < s0 ->
  returned start_layer max_memory num_layers layer_size_cache = Ok start_layer /\
  layer_window start_layer start_layer = [start_layer] /\
  returned start_layer s0 num_layers layer_size_cache = Ok start_layer.
Proof.
  intros Hn Hpos Hs0 Hb. repeat split.
  - apply returned_start with s0; [assumption .. | lia].
  - unfold layer_window. by replace (start_layer + 1 - start_layer) with 1 by lia.
  - apply returned_start with s0; [assumption .. | lia].
Qed.

Lemma C3_witness :
  returned 3 99 16 (replicate 16 100) = Ok 3 /\
  layer_window 3 3 = [3] /\
  returned 3 100 16 (replicate 16 100) = Ok 3.
Proof.
  apply (C3_budget_below_start_size 3 99 16 (replicate 16 100) 100).
  - simpl. lia.
  - vm_compute. repeat (constructor; [reflexivity|]). constructor.
  - reflexivity.
  - lia.
Defined.

(** C4.  The answer is monotone in the budget: if the call with the larger
    budget returns, the call with the smaller budget returns too, with an
    answer that is no larger, so its window is contained in the other. *)
Theorem C4_monotone_in_budget
    start_layer num_layers layer_size_cache budget1 budget2 end2 :
  budget1 <= budget2 ->
  returned start_layer budget2 num_layers layer_size_cache = Ok end2 ->
  exists end1,
    returned start_layer budget1 num_layers layer_size_cache = Ok end1 /\
    end1 <= end2 /\
    layer_window start_layer end1 ⊆ layer_window start_layer end2.
Proof.
  intros Hle (s0 & log2' & l2' & Hs0 & Hrun2 & ->)%returned_Ok.
  destruct (while_true_mono num_layers layer_size_cache
              (Locals start_layer budget2 s0) [start_layer]
              (Locals start_layer budget1 s0) [start_layer] _ _
              eq_refl eq_refl Hle Hrun2)
    as (log1' & l1' & Hrun1 & Hcur).
  exists (current_layer l1' - 1). split; [|split].
  - apply returned_Ok. eauto 6.
  - lia.
  - intros i. rewrite !elem_of_layer_window. lia.
Qed.

Lemma C4_witness :
  exists end1,
    returned 0 250 16 (replicate 16 100) = Ok end1 /\
    end1 <= 4 /\
    layer_window 0 end1 ⊆ layer_window 0 4.
Proof.
  apply (C4_monotone_in_budget 0 16 (replicate 16 100) 250 500 4).
  - lia.
  - reflexivity.
Defined.

(** C5.  When the start layer is a layer of the model and the budget holds
    it, every answer of the call gives a window [[start, end)], with [end]
    one past the answer, such that [start < end <= num_layers]; and the call
    does answer when the size table covers the model. *)
Theorem C5_window_bounds
    start_layer max_memory num_layers layer_size_cache s0 :
  0 <= start_layer < num_layers ->
  py_getitem layer_size_cache start_layer = Some s0 ->
  s0 <= max_memory ->
  (num_layers <= Z.of_nat (length layer_size_cache) ->
   exists end_layer,
     returned start_layer max_memory num_layers layer_size_cache = Ok end_layer) /\
  forall end_layer,
    returned start_layer max_memory num_layers layer_size_cache = Ok end_layer ->
    start_layer < end_layer + 1 <= num_layers /\
    forall i, i ∈ layer_window start_layer end_layer <->
              start_layer <= i < end_layer + 1.
Proof.
  intros Hstart Hs0 _. split.
  - intros Hn. apply returned_total; [|exact Hn].
    apply py_getitem_valid in Hs0. lia.
  - intros end_layer Hret. split.
    + apply returned_range in Hret. lia.
    + intros i. apply elem_of_layer_window.
Qed.

Lemma C5_witness :
  (exists end_layer, returned 0 100 16 (replicate 16 100) = Ok end_layer) /\
  0 < 0 + 1 <= 16 /\
  forall i, i ∈ layer_window 0 0 <-> 0 <= i < 0 + 1.
Proof.
  destruct (C5_window_bounds 0 100 16 (replicate 16 100) 100) as [Htotal Hwin].
  - lia.
  - reflexivity.
  - lia.
  - split.
    + apply Htotal. simpl. lia.
    + apply (Hwin 0). reflexivity.
Defined.

(** C8.  For a start layer of the model and a size table that covers the
    model, the call returns for every budget, and its answer lies between
    [start_layer] and [num_layers - 1]. *)
Theorem C8_answer_in_range
    start_layer max_memory num_layers layer_size_cache :
  0 <= start_layer < num_layers ->
  num_layers <= Z.of_nat (length layer_size_cache) ->
  exists end_layer,
    returned start_layer max_memory num_layers layer_size_cache = Ok end_layer /\
    start_layer <= end_layer <= num_layers - 1.
Proof.
  intros Hstart Hn.
  destruct (returned_total start_layer max_memory num_layers layer_size_cache)
    as [end_layer Hret]; [lia | lia |].
  exists end_layer. split; [exact Hret|].
  apply returned_range in Hret. lia.
Qed.

Lemma C8_witness :
  exists end_layer,
    returned 2 (-7) 5 [10; 20; 30; 40; 50] = Ok end_layer /\
    2 <= end_layer <= 5 - 1.
Proof.
  apply (C8_answer_in_range 2 (-7) 5 [10; 20; 30; 40; 50]).
  - lia.
  - simpl. lia.
Defined.

(** C9.  From the last layer the answer is the last layer whatever the
    budget: the loop leaves on its first test, and the only subscript
    evaluated is the initial [layer_size_cache[start_layer]]. *)
Theorem C9_last_layer
    start_layer max_memory num_layers layer_size_cache s0 :
  start_layer = num_layers - 1 ->
  py_getitem layer_size_cache start_layer = Some s0 ->
  returned start_layer max_memory num_layers layer_size_cache = Ok start_layer /\
  subscripts start_layer max_memory num_layers layer_size_cache = [start_layer].
Proof.
  intros Hlast Hs0.
  unfold returned, subscripts, layers_to_load_by_memory, bind, getitem, ret.
  simpl. rewrite Hs0. rewrite while_true_body.
  destruct (body_cases num_layers layer_size_cache
              (Locals start_layer max_memory s0) [start_layer])
    as [[Hc ->]|[(Hc & _)|[(x & Hc & _)|(x & Hc & _)]]]; simpl in *; try lia.
  split; [f_equal; lia | reflexivity].
Qed.

Lemma C9_witness :
  returned 15 0 16 (replicate 16 100) = Ok 15 /\
  subscripts 15 0 16 (replicate 16 100) = [15].
Proof.
  apply (C9_last_layer 15 0 16 (replicate 16 100) 100).
  - reflexivity.
  - reflexivity.
Defined.

(** C10.  Under [0 <= start_layer < num_layers <= len(layer_size_cache)]
    the call returns a value (the loop stops, no exception is raised), and
    every subscript it evaluates is a layer between [start_layer] and
    [num_layers - 1], hence inside the list.  The loop stops because a pass
    that continues has moved [current_layer] up by one and left it below
    [num_layers]. *)
Theorem C10_total_and_in_range
    start_layer max_memory num_layers layer_size_cache :
  0 <= start_layer < num_layers ->
  num_layers <= Z.of_nat (length layer_size_cache) ->
  (exists end_layer,
     returned start_layer max_memory num_layers layer_size_cache = Ok end_layer) /\
  Forall (fun i => start_layer <= i < num_layers /\
                   is_Some (layer_size_cache !! Z.to_nat i))
    (subscripts start_layer max_memory num_layers layer_size_cache) /\
  forall l log log' l',
    body num_layers layer_size_cache l log = (log', Ok (Continue l')) ->
    current_layer l' = current_layer l + 1 /\ current_layer l' < num_layers.
Proof.
  intros Hstart Hn. split; [|split].
  - apply returned_total; lia.
  - destruct (subscripts_spec start_layer max_memory num_layers layer_size_cache)
      as (extra & -> & Hall).
    constructor.
    + split; [lia|]. apply lookup_lt_is_Some. lia.
    + eapply Forall_impl; [exact Hall|]. simpl. intros i Hi.
      split; [lia|]. apply lookup_lt_is_Some. lia.
  - intros l log log' l' Hb. apply body_Continue in Hb. lia.
Qed.

Lemma C10_witness :
  (exists end_layer, returned 1 35 4 [10; 20; 30; 40] = Ok end_layer) /\
  Forall (fun i => 1 <= i < 4 /\ is_Some ([10; 20; 30; 40] !! Z.to_nat i))
    (subscripts 1 35 4 [10; 20; 30; 40]) /\
  forall l log log' l',
    body 4 [10; 20; 30; 40] l log = (log', Ok (Continue l')) ->
    current_layer l' = current_layer l + 1 /\ current_layer l' < 4.
Proof.
  apply (C10_total_and_in_range 1 35 4 [10; 20; 30; 40]).
  - lia.
  - simpl. lia.
Defined.

(** ** Properties of the loader *)

Section LoaderFacts.
Context {Payload Dtype : Type}.
Variable convert : Dtype -> Dtype -> Payload -> Payload.
Variable path_join : string -> string -> string.
Variable device_ok : string -> bool.

(** C6.  For a tensor name absent from the index the call raises
    [ValueError] before anything else happens: the world it leaves is the
    world it found, so no path was handed to [safe_open] and the disk is
    as before.  The index is an argument the function only reads. *)
Theorem C6_unknown_tensor
    (layer_file_cache : gmap string string)
    (model_dir layer_name device : string) (dtype : Dtype) (w : world) :
  layer_file_cache !! layer_name = None ->
  load_shard_tensor convert path_join device_ok layer_file_cache model_dir layer_name device dtype w =
    (w, Raise (ValueError
                 ("Could not find layer file for layer " +:+ layer_name))).
Proof.
  intros Habsent. unfold load_shard_tensor, dict_contains.
  rewrite Habsent. rewrite bool_decide_false by (intros [? [=]]).
  reflexivity.
Qed.

(** C7.  For a tensor name the index maps to [file], the call hands
    exactly one path to [safe_open], the join of the model directory and
    [file], and leaves the disk as it was.  It returns a tensor exactly
    when the library accepts the device, the file at that path is a
    safetensors file and holds the tensor; the tensor returned is then the
    stored one converted to the requested dtype, on the requested device.
    In every other case the call raises. *)
Theorem C7_known_tensor
    (layer_file_cache : gmap string string)
    (model_dir layer_name device file : string) (dtype : Dtype) (w : world) :
  layer_file_cache !! layer_name = Some file ->
  let out :=
    load_shard_tensor convert path_join device_ok layer_file_cache model_dir
      layer_name device dtype w in
  opened (fst out) = opened w ++ [path_join model_dir file] /\
  disk (fst out) = disk w /\
  forall result_tensor,
    snd out = Ok result_tensor <->
    device_ok device = true /\
    exists shard t,
      disk w !! path_join model_dir file = Some (SafetensorsFile shard) /\
      shard !! layer_name = Some t /\
      result_tensor =
        Tensor (convert (stored_dtype t) dtype (stored_payload t))
          dtype device.
Proof.
  intros Hfile. unfold load_shard_tensor, dict_contains, dict_getitem.
  rewrite Hfile. rewrite bool_decide_true by eauto.
  cbn [negb]. unfold bind, ret, raise, safe_open, get_tensor, to.
  destruct (device_ok device) eqn:Hdev; cbn.
  - destruct (disk w !! path_join model_dir file) as [[shard|]|] eqn:Hshard; cbn.
    + destruct (shard !! layer_name) as [t|] eqn:Ht; cbn.
      * split; [reflexivity|]. split; [reflexivity|].
        intros result_tensor. split.
        -- intros [= <-]. split; [reflexivity|]. eauto.
        -- intros (_ & shard' & t' & [= <-] & Ht' & ->).
           rewrite Ht in Ht'. by injection Ht' as <-.
      * split; [reflexivity|]. split; [reflexivity|].
        intros result_tensor. split; [discriminate|].
        intros (_ & shard' & t' & [= <-] & Ht' & _). congruence.
    + split; [reflexivity|]. split; [reflexivity|].
      intros result_tensor. split; [discriminate|].
      intros (_ & shard' & t' & Hno & _). discriminate.
    + split; [reflexivity|]. split; [reflexivity|].
      intros result_tensor. split; [discriminate|].
      intros (_ & shard' & t' & Hno & _). discriminate.
  - split; [reflexivity|]. split; [reflexivity|].
    intros result_tensor. split; [discriminate|].
    intros (Hno & _). discriminate.
Qed.

End LoaderFacts.

Lemma C6_witness :
  load_shard_tensor keep_payload posix_join cpu_only example_index
    "models/Llama3.2-1b-instruct" "bad_layer" "cpu" float16 example_world =
  (example_world,
   Raise (ValueError ("Could not find layer file for layer " +:+ "bad_layer"))).
Proof.
  apply (C6_unknown_tensor keep_payload posix_join cpu_only example_index
           "models/Llama3.2-1b-instruct" "bad_layer" "cpu" float16 example_world).
  vm_compute. reflexivity.
Defined.

Lemma C7_witness :
  let out :=
    load_shard_tensor keep_payload posix_join cpu_only example_index
      "models/Llama3.2-1b-instruct" "model.norm.weight" "cpu" float16
      example_world in
  opened (fst out) =
    ["models/Llama3.2-1b-instruct/model-00002-of-00002.safetensors"] /\
  disk (fst out) = disk example_world /\
  snd out = Ok (Tensor [3; 1; 4] float16 "cpu").
Proof.
  destruct (C7_known_tensor keep_payload posix_join cpu_only example_index
              "models/Llama3.2-1b-instruct" "model.norm.weight" "cpu"
              "model-00002-of-00002.safetensors" float16 example_world)
    as (Hopened & Hdisk & Hout).
  - vm_compute. reflexivity.
  - split; [exact Hopened|]. split; [exact Hdisk|].
    apply Hout. split; [reflexivity|].
    exists {[ "model.norm.weight" := example_norm ]}, example_norm.
    repeat split; vm_compute; reflexivity.
Defined.

(** ** The budget along the loop *)

Lemma Zsum_app (l1 l2 : list Z) : Zsum (l1 ++ l2) = Zsum l1 + Zsum l2.
Proof. induction l1 as [|x l1 IH]; simpl; [reflexivity | rewrite IH; lia]. Qed.

Lemma size_of_layer_py_getitem layer_size_cache i x :
  0 <= i -> py_getitem layer_size_cache i = Some x ->
  size_of_layer layer_size_cache i = x.
Proof.
  intros Hi Hx. rewrite py_getitem_nonneg in Hx by exact Hi.
  unfold size_of_layer. by rewrite Hx.
Qed.

Lemma size_of_layer_nonneg layer_size_cache i :
  Forall (fun s => 0 <= s) layer_size_cache ->
  0 <= size_of_layer layer_size_cache i.
Proof.
  intros Hpos. unfold size_of_layer.
  destruct (layer_size_cache !! Z.to_nat i) as [x|] eqn:Hx; simpl; [|lia].
  rewrite Forall_forall in Hpos. apply Hpos. by eapply list_elem_of_lookup_2.
Qed.

Lemma window_size_nil layer_size_cache a b :
  b < a -> window_size layer_size_cache a b = 0.
Proof.
  intros Hlt. unfold window_size, layer_window. by rewrite seqZ_nil by lia.
Qed.

Lemma window_size_cons layer_size_cache a b :
  a <= b ->
  window_size layer_size_cache a b =
  size_of_layer layer_size_cache a + window_size layer_size_cache (a + 1) b.
Proof.
  intros Hle. unfold window_size, layer_window.
  rewrite seqZ_cons by lia.
  replace (Z.succ a) with (a + 1) by lia.
  replace (Z.pred (b + 1 - a)) with (b + 1 - (a + 1)) by lia.
  reflexivity.
Qed.

Lemma window_size_snoc layer_size_cache a b :
  a <= b + 1 ->
  window_size layer_size_cache a (b + 1) =
  window_size layer_size_cache a b + size_of_layer layer_size_cache (b + 1).
Proof.
  intros Hle. unfold window_size, layer_window.
  replace (b + 1 + 1 - a) with ((b + 1 - a) + 1) by lia.
  rewrite seqZ_app by lia. rewrite fmap_app, Zsum_app.
  rewrite (seqZ_cons _ 1) by lia. rewrite (seqZ_nil _ (Z.pred 1)) by lia.
  replace (a + (b + 1 - a)) with (b + 1) by lia. simpl. lia.
Qed.

Lemma window_size_single layer_size_cache a :
  window_size layer_size_cache a a = size_of_layer layer_size_cache a.
Proof.
  rewrite window_size_cons by lia. rewrite window_size_nil by lia. lia.
Qed.

(** With sizes that are not negative, a longer window is not smaller. *)
Lemma window_size_mono layer_size_cache a b1 b2 :
  Forall (fun s => 0 <= s) layer_size_cache ->
  b1 <= b2 ->
  window_size layer_size_cache a b1 <= window_size layer_size_cache a b2.
Proof.
  intros Hpos Hle.
  replace b2 with (b1 + Z.of_nat (Z.to_nat (b2 - b1))) by lia.
  induction (Z.to_nat (b2 - b1)) as [|k IH].
  - replace (b1 + Z.of_nat 0) with b1 by lia. lia.
  - replace (b1 + Z.of_nat (S k)) with (b1 + Z.of_nat k + 1) by lia.
    destruct (Z_lt_le_dec (b1 + Z.of_nat k + 1) a) as [Hlt|Hge].
    + rewrite (window_size_nil _ a b1), (window_size_nil _ a (_ + 1)) by lia. lia.
    + rewrite window_size_snoc by lia.
      pose proof (size_of_layer_nonneg layer_size_cache (b1 + Z.of_nat k + 1) Hpos).
      lia.
Qed.

(** The invariant the loop keeps: [free_memory] is the budget left after the
    layers before [current_layer], and [next_layer_size] is the size of
    [current_layer].  So when the loop stops, the layers passed fit the
    memory that was free, as soon as the loop went past one layer; and
    unless it ran into [num_layers] the layer it stopped at did not fit any
    more. *)
Lemma while_true_budget num_layers layer_size_cache l log log' l' :
  0 <= current_layer l ->
  py_getitem layer_size_cache (current_layer l) = Some (next_layer_size l) ->
  while_true num_layers layer_size_cache l log = (log', Ok l') ->
  (current_layer l + 1 < current_layer l' ->
   window_size layer_size_cache (current_layer l) (current_layer l' - 1)
   <= free_memory l) /\
  (current_layer l' < num_layers ->
   free_memory l
   < window_size layer_size_cache (current_layer l) (current_layer l')).
Proof.
  revert l log log' l'.
  apply (loop_ind num_layers layer_size_cache
           (fun l log => forall log' l',
                0 <= current_layer l ->
                py_getitem layer_size_cache (current_layer l)
                  = Some (next_layer_size l) ->
                while_true num_layers layer_size_cache l log = (log', Ok l') ->
                (current_layer l + 1 < current_layer l' ->
                 window_size layer_size_cache (current_layer l)
                   (current_layer l' - 1) <= free_memory l) /\
                (current_layer l' < num_layers ->
                 free_memory l
                 < window_size layer_size_cache (current_layer l)
                     (current_layer l')))).
  intros l log IH log' l' Hpos Hnext. rewrite while_true_body.
  pose proof (size_of_layer_py_getitem _ _ _ Hpos Hnext) as Hsz.
  destruct (body_cases num_layers layer_size_cache l log)
    as [[Hc ->]|[(Hc & _ & ->)|[(x & Hc & Hx & Hf & ->)|(x & Hc & Hx & Hf & Hb)]]].
  - intros [= <- <-]. simpl. lia.
  - discriminate.
  - intros [= <- <-]. simpl. split; [lia|]. intros _.
    rewrite window_size_cons by lia. rewrite window_size_single.
    rewrite Hsz. rewrite (size_of_layer_py_getitem _ _ x) by (lia || done). lia.
  - rewrite Hb. intros Hrun.
    pose proof (while_true_current _ _ _ _ _ _ Hrun) as [Hlt _].
    apply (IH _ _ Hb) in Hrun as [Hfit Hmax]; simpl in *; [|lia|exact Hx].
    pose proof (size_of_layer_py_getitem layer_size_cache
                  (current_layer l + 1) x ltac:(lia) Hx) as Hsx.
    split.
    + intros _. rewrite window_size_cons by lia. rewrite Hsz.
      destruct (Z_lt_le_dec (current_layer l + 1 + 1) (current_layer l')) as [H2|H2].
      * specialize (Hfit H2). lia.
      * replace (current_layer l' - 1) with (current_layer l + 1) by lia.
        rewrite window_size_single, Hsx. lia.
    + intros Hn. specialize (Hmax Hn).
      rewrite window_size_cons by lia. rewrite Hsz. lia.
Qed.

(** The invariant, at the level of a call. *)
Lemma returned_budget start_layer max_memory num_layers layer_size_cache end_layer :
  0 <= start_layer ->
  returned start_layer max_memory num_layers layer_size_cache = Ok end_layer ->
  (start_layer < end_layer ->
   window_size layer_size_cache start_layer end_layer <= max_memory) /\
  (end_layer + 1 < num_layers ->
   max_memory < window_size layer_size_cache start_layer (end_layer + 1)).
Proof.
  intros Hstart (s0 & log' & l' & Hs0 & Hrun & ->)%returned_Ok.
  apply while_true_budget in Hrun as [Hfit Hmax]; simpl in *; [|lia|exact Hs0].
  split.
  - intros Hlt. apply Hfit. lia.
  - intros Hn. replace (current_layer l' - 1 + 1) with (current_layer l') by lia.
    apply Hmax. lia.
Qed.

Lemma window_size_replicate m s a b :
  0 <= a -> a <= b + 1 -> b < Z.of_nat m ->
  window_size (replicate m s) a b = s * (b + 1 - a).
Proof.
  intros Ha Hab Hb.
  replace b with (a - 1 + Z.of_nat (Z.to_nat (b + 1 - a))) in * by lia.
  induction (Z.to_nat (b + 1 - a)) as [|k IH].
  - rewrite window_size_nil by lia. lia.
  - replace (a - 1 + Z.of_nat (S k)) with (a - 1 + Z.of_nat k + 1) in * by lia.
    rewrite window_size_snoc by lia. rewrite IH by lia.
    unfold size_of_layer. rewrite lookup_replicate_2 by lia. simpl. lia.
Qed.

(** ** What the answer means for the budget *)

(** X1.  The window fits the budget: when a call returns [end_layer], the
    layers from [start_layer] to [end_layer] together take no more than
    [max_memory], provided the window is longer than one layer or the
    budget holds the start layer. *)
Theorem X1_window_fits_budget
    start_layer max_memory num_layers layer_size_cache s0 end_layer :
  0 <= start_layer ->
  py_getitem layer_size_cache start_layer = Some s0 ->
  returned start_layer max_memory num_layers layer_size_cache = Ok end_layer ->
  start_layer < end_layer \/ s0 <= max_memory ->
  window_size layer_size_cache start_layer end_layer <= max_memory.
Proof.
  intros Hstart Hs0 Hret Hcase.
  pose proof (returned_range _ _ _ _ _ Hret) as [Hle _].
  destruct (returned_budget _ _ _ _ _ Hstart Hret) as [Hfit _].
  destruct (Z_lt_le_dec start_layer end_layer) as [Hlt|Hge]; [by apply Hfit|].
  destruct Hcase as [Hlt|Hs]; [lia|].
  replace end_layer with start_layer by lia.
  rewrite window_size_single.
  by rewrite (size_of_layer_py_getitem _ _ _ Hstart Hs0).
Qed.

Lemma X1_witness :
  window_size [10; 20; 30; 40] 1 2 <= 55.
Proof.
  apply (X1_window_fits_budget 1 55 4 [10; 20; 30; 40] 20 2).
  - lia.
  - reflexivity.
  - reflexivity.
  - left. lia.
Defined.

(** X2.  The window is as long as the budget allows: when a call returns
    [end_layer] and [end_layer + 1] is still a layer of the model, the
    layers from [start_layer] to [end_layer + 1] together take more than
    [max_memory]. *)
Theorem X2_next_layer_does_not_fit
    start_layer max_memory num_layers layer_size_cache end_layer :
  0 <= start_layer ->
  returned start_layer max_memory num_layers layer_size_cache = Ok end_layer ->
  end_layer + 1 < num_layers ->
  max_memory < window_size layer_size_cache start_layer (end_layer + 1).
Proof.
  intros Hstart Hret Hn.
  destruct (returned_budget _ _ _ _ _ Hstart Hret) as [_ Hmax]. by apply Hmax.
Qed.

Lemma X2_witness :
  55 < window_size [10; 20; 30; 40] 1 (2 + 1).
Proof.
  apply (X2_next_layer_does_not_fit 1 55 4 [10; 20; 30; 40] 2).
  - lia.
  - reflexivity.
  - lia.
Defined.

(** X3.  With layer sizes that are not negative the two facts pin the
    answer down: [end_layer] is returned exactly when it is a layer from
    [start_layer] on, the window up to it fits the budget (if it is longer
    than one layer), and the window up to the next layer (if there is one)
    does not. *)
Theorem X3_answer_characterised
    start_layer max_memory num_layers layer_size_cache end_layer :
  0 <= start_layer < num_layers ->
  num_layers <= Z.of_nat (length layer_size_cache) ->
  Forall (fun s => 0 <= s) layer_size_cache ->
  returned start_layer max_memory num_layers layer_size_cache = Ok end_layer <->
  start_layer <= end_layer <= num_layers - 1 /\
  (start_layer < end_layer ->
   window_size layer_size_cache start_layer end_layer <= max_memory) /\
  (end_layer + 1 < num_layers ->
   max_memory < window_size layer_size_cache start_layer (end_layer + 1)).
Proof.
  intros Hstart Hn Hpos. split.
  - intros Hret. split.
    + apply returned_range in Hret. lia.
    + apply returned_budget; [lia | exact Hret].
  - intros (Hrange & Hfit & Hmax).
    destruct (returned_total start_layer max_memory num_layers layer_size_cache)
      as [e Hret]; [lia | lia |].
    pose proof (returned_range _ _ _ _ _ Hret) as [Hle Hhi].
    destruct (returned_budget _ _ _ _ _ (proj1 Hstart) Hret) as [Hfit' Hmax'].
    destruct (Z.lt_trichotomy e end_layer) as [Hlt|[->|Hgt]]; [|exact Hret|].
    + pose proof (window_size_mono layer_size_cache start_layer (e + 1) end_layer
                    Hpos ltac:(lia)).
      specialize (Hfit ltac:(lia)). specialize (Hmax' ltac:(lia)). lia.
    + pose proof (window_size_mono layer_size_cache start_layer (end_layer + 1) e
                    Hpos ltac:(lia)).
      specialize (Hfit' ltac:(lia)). specialize (Hmax ltac:(lia)). lia.
Qed.

Lemma X3_witness :
  returned 1 55 4 [10; 20; 30; 40] = Ok 2 <->
  1 <= 2 <= 4 - 1 /\
  (1 < 2 -> window_size [10; 20; 30; 40] 1 2 <= 55) /\
  (2 + 1 < 4 -> 55 < window_size [10; 20; 30; 40] 1 (2 + 1)).
Proof.
  apply (X3_answer_characterised 1 55 4 [10; 20; 30; 40] 2).
  - lia.
  - simpl. lia.
  - repeat (constructor; [lia|]). constructor.
Defined.

(** X4.  A budget that holds every layer from [start_layer] to the last one
    gets the last layer as the answer: the whole rest of the model is
    loaded. *)
Theorem X4_whole_model_fits
    start_layer max_memory num_layers layer_size_cache :
  0 <= start_layer < num_layers ->
  num_layers <= Z.of_nat (length layer_size_cache) ->
  Forall (fun s => 0 <= s) layer_size_cache ->
  window_size layer_size_cache start_layer (num_layers - 1) <= max_memory ->
  returned start_layer max_memory num_layers layer_size_cache
  = Ok (num_layers - 1).
Proof.
  intros Hstart Hn Hpos Hall.
  destruct (returned_total start_layer max_memory num_layers layer_size_cache)
    as [e Hret]; [lia | lia |].
  pose proof (returned_range _ _ _ _ _ Hret) as [Hle Hhi].
  destruct (returned_budget _ _ _ _ _ (proj1 Hstart) Hret) as [_ Hmax].
  destruct (Z_lt_le_dec (e + 1) num_layers) as [Hlt|Hge].
  - pose proof (window_size_mono layer_size_cache start_layer (e + 1)
                  (num_layers - 1) Hpos ltac:(lia)).
    specialize (Hmax Hlt). lia.
  - rewrite Hret. f_equal. lia.
Qed.

Lemma X4_witness :
  returned 1 90 4 [10; 20; 30; 40] = Ok (4 - 1).
Proof.
  apply (X4_whole_model_fits 1 90 4 [10; 20; 30; 40]).
  - lia.
  - simpl. lia.
  - repeat (constructor; [lia|]). constructor.
  - vm_compute. discriminate.
Defined.

(** X5.  Closed form for layers of one size [s > 0]: the answer is
    [start_layer + max_memory / s - 1], cut off at the last layer above and
    at [start_layer] below. *)
Theorem X5_uniform_sizes
    start_layer max_memory num_layers (m : nat) s :
  0 < s ->
  0 <= start_layer < num_layers ->
  num_layers <= Z.of_nat m ->
  returned start_layer max_memory num_layers (replicate m s)
  = Ok (Z.max start_layer
          (Z.min (num_layers - 1) (start_layer + max_memory / s - 1))).
Proof.
  intros Hs Hstart Hn.
  destruct (returned_total start_layer max_memory num_layers (replicate m s))
    as [e Hret]; [rewrite length_replicate; lia .. |].
  pose proof (returned_range _ _ _ _ _ Hret) as [Hle Hhi].
  destruct (returned_budget _ _ _ _ _ (proj1 Hstart) Hret) as [Hfit Hmax].
  rewrite Hret. f_equal.
  pose proof (Z.div_mod max_memory s ltac:(lia)) as Hdiv.
  pose proof (Z.mod_pos_bound max_memory s Hs) as Hmod.
  set (q := max_memory / s) in *.
  assert (start_layer < e -> e + 1 - start_layer <= q) as Hq1.
  { intros Hlt. specialize (Hfit Hlt).
    rewrite window_size_replicate in Hfit by lia. nia. }
  assert (e + 1 < num_layers -> q < e + 2 - start_layer) as Hq2.
  { intros Hlt. specialize (Hmax Hlt).
    rewrite window_size_replicate in Hmax by lia. nia. }
  lia.
Qed.

Lemma X5_witness :
  returned 0 250 16 (replicate 16 100)
  = Ok (Z.max 0 (Z.min (16 - 1) (0 + 250 / 100 - 1))).
Proof.
  apply (X5_uniform_sizes 0 250 16 16 100).
  - lia.
  - lia.
  - simpl. lia.
Defined.

(** ** Further facts about the loop *)

(** What a pass decides does not depend on the log. *)
Lemma body_snd_log num_layers layer_size_cache l log1 log2 :
  snd (body num_layers layer_size_cache l log1)
  = snd (body num_layers layer_size_cache l log2).
Proof.
  unfold body, bind, getitem, ret.
  destruct (_ >=? num_layers); [reflexivity|].
  destruct (py_getitem _ _); [|reflexivity].
  by destruct (_ <? 0).
Qed.

Lemma while_true_any_log num_layers layer_size_cache l log :
  forall log' r log2,
    while_true num_layers layer_size_cache l log = (log', r) ->
    exists log2', while_true num_layers layer_size_cache l log2 = (log2', r).
Proof.
  revert l log.
  apply (loop_ind num_layers layer_size_cache
           (fun l log => forall log' r log2,
                while_true num_layers layer_size_cache l log = (log', r) ->
                exists log2',
                  while_true num_layers layer_size_cache l log2 = (log2', r))).
  intros l log IH log' r log2.
  rewrite (while_true_body _ _ l log), (while_true_body _ _ l log2).
  pose proof (body_snd_log num_layers layer_size_cache l log log2) as Hsnd.
  destruct (body num_layers layer_size_cache l log) as [lg [[l1|l1]|e]] eqn:Hb;
    destruct (body num_layers layer_size_cache l log2) as [lg2 [[l2|l2]|e2]];
    simpl in Hsnd; try discriminate; injection Hsnd as <-.
  - intros Hrun. by apply (IH _ _ eq_refl _ _ lg2) in Hrun.
  - intros [= <- <-]. eauto.
  - intros [= <- <-]. eauto.
Qed.

(** Every subscript of a run that returns was in range, including the one
    at which the loop stopped for lack of memory. *)
Lemma while_true_reads num_layers layer_size_cache l log log' l' :
  while_true num_layers layer_size_cache l log = (log', Ok l') ->
  forall i, current_layer l < i <= current_layer l' -> i < num_layers ->
            is_Some (py_getitem layer_size_cache i).
Proof.
  revert l log log' l'.
  apply (loop_ind num_layers layer_size_cache
           (fun l log => forall log' l',
                while_true num_layers layer_size_cache l log = (log', Ok l') ->
                forall i, current_layer l < i <= current_layer l' ->
                          i < num_layers ->
                          is_Some (py_getitem layer_size_cache i))).
  intros l log IH log' l'. rewrite while_true_body.
  destruct (body_cases num_layers layer_size_cache l log)
    as [[Hc ->]|[(Hc & _ & ->)|[(x & Hc & Hx & Hf & ->)|(x & Hc & Hx & Hf & Hb)]]].
  - intros [= <- <-] i Hi Hn. simpl in Hi. lia.
  - discriminate.
  - intros [= <- <-] i Hi Hn. simpl in Hi.
    replace i with (current_layer l + 1) by lia. eauto.
  - rewrite Hb. intros Hrun i Hi Hn.
    destruct (Z.eq_dec i (current_layer l + 1)) as [->|Hne]; [eauto|].
    apply (IH _ _ Hb _ _ Hrun); simpl; lia.
Qed.

(** The only exception the loop raises is [IndexError], for the subscript
    logged last, which is out of range. *)
Lemma while_true_Raise num_layers layer_size_cache l log log' ex :
  while_true num_layers layer_size_cache l log = (log', Raise ex) ->
  ex = IndexError /\
  exists i, last log' = Some i /\ py_getitem layer_size_cache i = None /\
            current_layer l < i < num_layers.
Proof.
  revert l log log' ex.
  apply (loop_ind num_layers layer_size_cache
           (fun l log => forall log' ex,
                while_true num_layers layer_size_cache l log = (log', Raise ex) ->
                ex = IndexError /\
                exists i, last log' = Some i /\
                          py_getitem layer_size_cache i = None /\
                          current_layer l < i < num_layers)).
  intros l log IH log' ex. rewrite while_true_body.
  destruct (body_cases num_layers layer_size_cache l log)
    as [[Hc ->]|[(Hc & Hx & ->)|[(x & Hc & Hx & Hf & ->)|(x & Hc & Hx & Hf & Hb)]]].
  - discriminate.
  - intros [= <- <-]. split; [reflexivity|].
    exists (current_layer l + 1). rewrite last_snoc. repeat split; [exact Hx | lia ..].
  - discriminate.
  - rewrite Hb. intros Hrun.
    destruct (IH _ _ Hb _ _ Hrun) as (-> & i & Hlast & Hi & Hrange).
    split; [reflexivity|]. exists i. simpl in Hrange. repeat split; [done .. | lia | lia].
Qed.

(** A smaller [num_layers] cuts the run short and changes nothing else. *)
Lemma while_true_truncate n1 n2 layer_size_cache l log :
  forall log' l2' log1,
    current_layer l < n1 <= n2 ->
    while_true n2 layer_size_cache l log = (log', Ok l2') ->
    exists log1' l1',
      while_true n1 layer_size_cache l log1 = (log1', Ok l1') /\
      current_layer l1' = Z.min (current_layer l2') n1.
Proof.
  revert l log.
  apply (loop_ind n2 layer_size_cache
           (fun l log => forall log' l2' log1,
                current_layer l < n1 <= n2 ->
                while_true n2 layer_size_cache l log = (log', Ok l2') ->
                exists log1' l1',
                  while_true n1 layer_size_cache l log1 = (log1', Ok l1') /\
                  current_layer l1' = Z.min (current_layer l2') n1)).
  intros l log IH log' l2' log1 Hn.
  rewrite (while_true_body n2), (while_true_body n1).
  destruct (body_cases n2 layer_size_cache l log)
    as [[Hc ->]|[(Hc & _ & ->)|[(x & Hc & Hx & Hf & ->)|(x & Hc & Hx & Hf & Hb)]]].
  - intros [= <- <-].
    destruct (body_cases n1 layer_size_cache l log1)
      as [[Hc1 ->]|[(Hc1 & _)|[(y & Hc1 & _)|(y & Hc1 & _)]]]; try lia.
    eexists _, _. split; [reflexivity|]. simpl. lia.
  - discriminate.
  - intros [= <- <-].
    destruct (body_cases n1 layer_size_cache l log1)
      as [[Hc1 ->]|[(_ & Hy & _)|[(y & _ & Hy & _ & ->)|(y & _ & Hy & Hf1 & _)]]].
    + eexists _, _. split; [reflexivity|]. simpl. lia.
    + congruence.
    + eexists _, _. split; [reflexivity|]. simpl. lia.
    + rewrite Hx in Hy. injection Hy as <-. lia.
  - rewrite Hb. intros Hrun.
    pose proof (while_true_current _ _ _ _ _ _ Hrun) as [Hlt _]. simpl in Hlt.
    destruct (body_cases n1 layer_size_cache l log1)
      as [[Hc1 ->]|[(_ & Hy & _)|[(y & _ & Hy & Hf1 & _)|(y & Hc1 & Hy & _ & ->)]]].
    + eexists _, _. split; [reflexivity|]. simpl. lia.
    + congruence.
    + rewrite Hx in Hy. injection Hy as <-. lia.
    + rewrite Hx in Hy. injection Hy as <-.
      apply (IH _ _ Hb _ _ (log1 ++ [current_layer l + 1])) in Hrun;
        [exact Hrun | simpl; lia].
Qed.

(** Renumbering the layers: a run over one table is matched, [d] layers
    lower, by a run over any table that holds the same sizes [d] places
    earlier, at least at the subscripts the first run evaluates. *)
Lemma while_true_shift num_layers sizes1 sizes2 d l log :
  forall log' l' log2,
    while_true num_layers sizes1 l log = (log', Ok l') ->
    (forall i, current_layer l < i <= current_layer l' -> i < num_layers ->
               py_getitem sizes2 (i - d) = py_getitem sizes1 i) ->
    exists log2',
      while_true (num_layers - d) sizes2
        (Locals (current_layer l - d) (free_memory l) (next_layer_size l)) log2
      = (log2', Ok (Locals (current_layer l' - d) (free_memory l')
                      (next_layer_size l'))).
Proof.
  revert l log.
  apply (loop_ind num_layers sizes1
           (fun l log => forall log' l' log2,
                while_true num_layers sizes1 l log = (log', Ok l') ->
                (forall i, current_layer l < i <= current_layer l' ->
                           i < num_layers ->
                           py_getitem sizes2 (i - d) = py_getitem sizes1 i) ->
                exists log2',
                  while_true (num_layers - d) sizes2
                    (Locals (current_layer l - d) (free_memory l)
                       (next_layer_size l)) log2
                  = (log2', Ok (Locals (current_layer l' - d) (free_memory l')
                                  (next_layer_size l'))))).
  intros l log IH log' l' log2.
  rewrite (while_true_body num_layers), (while_true_body (num_layers - d)).
  destruct (body_cases num_layers sizes1 l log)
    as [[Hc ->]|[(Hc & _ & ->)|[(x & Hc & Hx & Hf & ->)|(x & Hc & Hx & Hf & Hb)]]].
  - intros [= <- <-] _.
    destruct (body_cases (num_layers - d) sizes2
                (Locals (current_layer l - d) (free_memory l) (next_layer_size l))
                log2)
      as [[Hc2 ->]|[(Hc2 & _)|[(y & Hc2 & _)|(y & Hc2 & _)]]];
      simpl in *; try lia.
    eexists. do 3 f_equal. lia.
  - discriminate.
  - intros [= <- <-] Hagree. simpl in Hagree.
    specialize (Hagree (current_layer l + 1) ltac:(lia) ltac:(lia)).
    rewrite Hx in Hagree.
    destruct (body_cases (num_layers - d) sizes2
                (Locals (current_layer l - d) (free_memory l) (next_layer_size l))
                log2)
      as [[Hc2 _]|[(_ & Hy & _)|[(y & _ & Hy & _ & ->)|(y & _ & Hy & Hf2 & _)]]];
      simpl in *; try lia;
      replace (current_layer l - d + 1) with (current_layer l + 1 - d) in * by lia;
      rewrite Hagree in Hy; try discriminate; injection Hy as <-; [|lia].
    eexists. reflexivity.
  - rewrite Hb. intros Hrun Hagree.
    pose proof (while_true_current _ _ _ _ _ _ Hrun) as [Hlt _]. simpl in Hlt.
    pose proof (Hagree (current_layer l + 1) ltac:(lia) ltac:(lia)) as Hnext.
    rewrite Hx in Hnext.
    destruct (body_cases (num_layers - d) sizes2
                (Locals (current_layer l - d) (free_memory l) (next_layer_size l))
                log2)
      as [[Hc2 _]|[(_ & Hy & _)|[(y & _ & Hy & Hf2 & _)|(y & _ & Hy & _ & ->)]]];
      simpl in *; try lia;
      replace (current_layer l - d + 1) with (current_layer l + 1 - d) in * by lia;
      rewrite Hnext in Hy; try discriminate; injection Hy as <-; [lia|].
    apply (IH _ _ Hb _ _ (log2 ++ [current_layer l + 1 - d])) in Hrun.
    + exact Hrun.
    + simpl. intros i Hi Hn. apply Hagree; lia.
Qed.

(** Starting again in the middle: a run that went from its first layer
    past layer [c] gives the same answer as a call that starts at [c] with
    the memory the run had left there. *)
Lemma while_true_restart num_layers layer_size_cache l log :
  forall log' l' c,
    0 <= current_layer l ->
    py_getitem layer_size_cache (current_layer l) = Some (next_layer_size l) ->
    while_true num_layers layer_size_cache l log = (log', Ok l') ->
    current_layer l <= c < current_layer l' ->
    returned c
      (free_memory l - window_size layer_size_cache (current_layer l) (c - 1))
      num_layers layer_size_cache
    = Ok (current_layer l' - 1).
Proof.
  revert l log.
  apply (loop_ind num_layers layer_size_cache
           (fun l log => forall log' l' c,
                0 <= current_layer l ->
                py_getitem layer_size_cache (current_layer l)
                  = Some (next_layer_size l) ->
                while_true num_layers layer_size_cache l log = (log', Ok l') ->
                current_layer l <= c < current_layer l' ->
                returned c
                  (free_memory l
                   - window_size layer_size_cache (current_layer l) (c - 1))
                  num_layers layer_size_cache
                = Ok (current_layer l' - 1))).
  intros l log IH log' l' c Hpos Hnext Hrun Hc.
  destruct (Z.eq_dec c (current_layer l)) as [->|Hne].
  - rewrite window_size_nil by lia. apply returned_Ok.
    exists (next_layer_size l).
    destruct (while_true_any_log _ _ _ _ _ _ [current_layer l] Hrun) as [log2' Hrun2].
    exists log2', l'. split; [exact Hnext|]. split; [|reflexivity].
    replace (free_memory l - 0) with (free_memory l) by lia.
    by destruct l.
  - rewrite while_true_body in Hrun.
    pose proof (size_of_layer_py_getitem _ _ _ Hpos Hnext) as Hsz.
    destruct (body_cases num_layers layer_size_cache l log)
      as [[Hc1 Hb]|[(Hc1 & _ & Hb)|[(x & Hc1 & Hx & Hf & Hb)|(x & Hc1 & Hx & Hf & Hb)]]];
      rewrite Hb in Hrun.
    + injection Hrun as <- <-. simpl in Hc. lia.
    + discriminate.
    + injection Hrun as <- <-. simpl in Hc. lia.
    + rewrite window_size_cons by lia. rewrite Hsz.
      replace (free_memory l
               - (next_layer_size l
                  + window_size layer_size_cache (current_layer l + 1) (c - 1)))
        with (free_memory l - next_layer_size l
              - window_size layer_size_cache (current_layer l + 1) (c - 1))
        by lia.
      apply (IH _ _ Hb log' l' c); simpl; [lia | exact Hx | exact Hrun | lia].
Qed.

Lemma returned_Raise start_layer max_memory num_layers layer_size_cache ex :
  returned start_layer max_memory num_layers layer_size_cache = Raise ex ->
  ex = IndexError /\
  exists i,
    last (subscripts start_layer max_memory num_layers layer_size_cache) = Some i /\
    py_getitem layer_size_cache i = None /\
    (i = start_layer \/ start_layer < i < num_layers).
Proof.
  unfold returned, subscripts, layers_to_load_by_memory, bind, getitem, ret.
  simpl. destruct (py_getitem layer_size_cache start_layer) as [s0|] eqn:Hs0; simpl.
  - destruct (while_true num_layers layer_size_cache
                (Locals start_layer max_memory s0) [start_layer])
      as [log' [l'|ex']] eqn:Hrun; simpl; [discriminate|].
    intros [= ->]. apply while_true_Raise in Hrun as (-> & i & Hlast & Hi & Hrange).
    split; [reflexivity|]. exists i. simpl in Hrange. auto.
  - intros [= <-]. split; [reflexivity|]. exists start_layer. auto.
Qed.

(** ** How calls relate *)

(** X6.  Starting again inside the window: if a call from [start_layer]
    answers [end_layer], then for every layer [c] of its window the call
    that starts at [c], with the budget less the layers before [c], gives
    the same answer. *)
Theorem X6_restart_inside_window
    start_layer max_memory num_layers layer_size_cache end_layer c :
  0 <= start_layer ->
  returned start_layer max_memory num_layers layer_size_cache = Ok end_layer ->
  start_layer <= c <= end_layer ->
  returned c (max_memory - window_size layer_size_cache start_layer (c - 1))
    num_layers layer_size_cache
  = Ok end_layer.
Proof.
  intros Hstart (s0 & log' & l' & Hs0 & Hrun & ->)%returned_Ok Hc.
  apply (while_true_restart _ _ _ _ _ _ c) in Hrun; simpl in *;
    [exact Hrun | lia | exact Hs0 | lia].
Qed.

Lemma X6_witness :
  returned 1 (65 - window_size [10; 20; 30; 40] 0 (1 - 1)) 4 [10; 20; 30; 40]
  = Ok 2.
Proof.
  apply (X6_restart_inside_window 0 65 4 [10; 20; 30; 40] 2 1).
  - lia.
  - reflexivity.
  - lia.
Defined.

(** X7.  The answer depends only on the sizes the window and the layer
    after it have: a table that agrees with the given one on the layers
    from [start_layer] to [end_layer + 1] gets the same answer. *)
Theorem X7_later_sizes_do_not_matter
    start_layer max_memory num_layers sizes1 sizes2 end_layer :
  returned start_layer max_memory num_layers sizes1 = Ok end_layer ->
  (forall i, start_layer <= i <= end_layer + 1 ->
             i = start_layer \/ i < num_layers ->
             py_getitem sizes2 i = py_getitem sizes1 i) ->
  returned start_layer max_memory num_layers sizes2 = Ok end_layer.
Proof.
  intros (s0 & log' & l' & Hs0 & Hrun & ->)%returned_Ok Hagree.
  pose proof (while_true_current _ _ _ _ _ _ Hrun) as [Hlt _]. simpl in Hlt.
  apply (while_true_shift _ _ sizes2 0 _ _ _ _ [start_layer]) in Hrun.
  - destruct Hrun as [log2' Hrun]. simpl in Hrun.
    replace (num_layers - 0) with num_layers in Hrun by lia.
    replace (start_layer - 0) with start_layer in Hrun by lia.
    apply returned_Ok. eexists s0, log2', _. split; [|split; [exact Hrun|]].
    + rewrite Hagree; [exact Hs0 | lia | by left].
    + simpl. lia.
  - simpl. intros i Hi Hn. replace (i - 0) with i by lia.
    apply Hagree; [lia | by right].
Qed.

Lemma X7_witness :
  returned 0 35 4 [10; 20; 30; 999] = Ok 1.
Proof.
  apply (X7_later_sizes_do_not_matter 0 35 4 [10; 20; 30; 40] [10; 20; 30; 999] 1).
  - reflexivity.
  - intros i Hi _.
    assert (i = 0 \/ i = 1 \/ i = 2) as [->|[->| ->]] by lia; reflexivity.
Defined.

(** X8.  The only exception a call raises is [IndexError], and it raises it
    for the subscript it evaluated last, which is out of range for the
    table: the start layer itself, or a layer after it and below
    [num_layers]. *)
Theorem X8_only_IndexError
    start_layer max_memory num_layers layer_size_cache ex :
  returned start_layer max_memory num_layers layer_size_cache = Raise ex ->
  ex = IndexError /\
  exists i,
    last (subscripts start_layer max_memory num_layers layer_size_cache) = Some i /\
    py_getitem layer_size_cache i = None /\
    (i = start_layer \/ start_layer < i < num_layers).
Proof. apply returned_Raise. Qed.

Lemma X8_witness :
  IndexError = IndexError /\
  exists i,
    last (subscripts 0 200 5 [1; 100]) = Some i /\
    py_getitem [1; 100] i = None /\
    (i = 0 \/ 0 < i < 5).
Proof.
  apply (X8_only_IndexError 0 200 5 [1; 100] IndexError).
  reflexivity.
Defined.

(** X9.  A size table shorter than [num_layers] is not noticed until the
    loop reaches its end: when the budget holds every listed layer from
    [start_layer] on, the call raises [IndexError]. *)
Theorem X9_short_table_raises
    start_layer max_memory num_layers layer_size_cache :
  0 <= start_layer < Z.of_nat (length layer_size_cache) ->
  Z.of_nat (length layer_size_cache) < num_layers ->
  Forall (fun s => 0 <= s) layer_size_cache ->
  window_size layer_size_cache start_layer
    (Z.of_nat (length layer_size_cache) - 1) <= max_memory ->
  returned start_layer max_memory num_layers layer_size_cache = Raise IndexError.
Proof.
  intros Hstart Hshort Hpos Hfits.
  destruct (returned start_layer max_memory num_layers layer_size_cache)
    as [e|ex] eqn:Hret.
  - exfalso.
    destruct (returned_budget _ _ _ _ _ (proj1 Hstart) Hret) as [_ Hmax].
    apply returned_Ok in Hret as (s0 & log' & l' & Hs0 & Hrun & ->).
    pose proof (while_true_current _ _ _ _ _ _ Hrun) as [Hlt Hhi].
    pose proof (while_true_reads _ _ _ _ _ _ Hrun) as Hreads.
    simpl in *.
    destruct (Z_lt_le_dec (current_layer l') num_layers) as [Hn|Hn].
    + destruct (Hreads (current_layer l') ltac:(lia) Hn) as [x Hx].
      apply py_getitem_valid in Hx.
      pose proof (window_size_mono layer_size_cache start_layer
                    (current_layer l')
                    (Z.of_nat (length layer_size_cache) - 1) Hpos ltac:(lia)).
      replace (current_layer l' - 1 + 1) with (current_layer l') in Hmax by lia.
      specialize (Hmax ltac:(lia)). lia.
    + destruct (Hreads (Z.of_nat (length layer_size_cache)) ltac:(lia) ltac:(lia))
        as [x Hx].
      apply py_getitem_valid in Hx. lia.
  - apply returned_Raise in Hret as [-> _]. reflexivity.
Qed.

Lemma X9_witness :
  returned 0 200 5 [1; 100] = Raise IndexError.
Proof.
  apply (X9_short_table_raises 0 200 5 [1; 100]).
  - simpl. lia.
  - simpl. lia.
  - repeat (constructor; [lia|]). constructor.
  - vm_compute. discriminate.
Defined.

(** X10.  Asking for fewer layers only cuts the window: for
    [start_layer < n1 <= n2], the answer with [num_layers = n1] is the
    answer with [num_layers = n2], capped at [n1 - 1]. *)
Theorem X10_fewer_layers_cut_the_window
    start_layer max_memory n1 n2 layer_size_cache end2 :
  start_layer < n1 <= n2 ->
  returned start_layer max_memory n2 layer_size_cache = Ok end2 ->
  returned start_layer max_memory n1 layer_size_cache
  = Ok (Z.min end2 (n1 - 1)).
Proof.
  intros Hn (s0 & log' & l' & Hs0 & Hrun & ->)%returned_Ok.
  apply (while_true_truncate n1 n2 _ _ _ _ _ [start_layer]) in Hrun;
    [|simpl; lia].
  destruct Hrun as (log1' & l1' & Hrun & Hcur).
  apply returned_Ok. exists s0, log1', l1'. repeat split; [done .. |]. lia.
Qed.

Lemma X10_witness :
  returned 0 65 2 [10; 20; 30; 40] = Ok (Z.min 2 (2 - 1)).
Proof.
  apply (X10_fewer_layers_cut_the_window 0 65 2 4 [10; 20; 30; 40] 2).
  - lia.
  - reflexivity.
Defined.

Lemma py_getitem_drop (l : list Z) (i k : Z) :
  0 <= i -> 0 <= k ->
  py_getitem (drop (Z.to_nat k) l) i = py_getitem l (i + k).
Proof.
  intros Hi Hk. rewrite !py_getitem_nonneg by lia.
  rewrite lookup_drop. f_equal. lia.
Qed.

(** X11.  Only the layers from [start_layer] on count: a call from
    [start_layer] answers as the call from layer 0 on the table without its
    first [start_layer] entries, for [num_layers - start_layer] layers, with
    the answer moved up by [start_layer]. *)
Theorem X11_drop_layers_before_start
    start_layer max_memory num_layers layer_size_cache end_layer :
  0 <= start_layer ->
  returned start_layer max_memory num_layers layer_size_cache = Ok end_layer <->
  returned 0 max_memory (num_layers - start_layer)
    (drop (Z.to_nat start_layer) layer_size_cache)
  = Ok (end_layer - start_layer).
Proof.
  intros Hstart. split.
  - intros (s0 & log' & l' & Hs0 & Hrun & ->)%returned_Ok.
    apply (while_true_shift _ _ (drop (Z.to_nat start_layer) layer_size_cache)
             start_layer _ _ _ _ [0]) in Hrun.
    + destruct Hrun as [log2' Hrun]. simpl in Hrun.
      replace (start_layer - start_layer) with 0 in Hrun by lia.
      apply returned_Ok. eexists s0, log2', _. split; [|split; [exact Hrun|]].
      * rewrite py_getitem_drop by lia. exact Hs0.
      * simpl. lia.
    + simpl. intros i Hi Hn. rewrite py_getitem_drop by lia.
      f_equal. lia.
  - intros (s0 & log' & l' & Hs0 & Hrun & He)%returned_Ok.
    apply (while_true_shift _ _ layer_size_cache (- start_layer) _ _ _ _
             [start_layer]) in Hrun.
    + destruct Hrun as [log2' Hrun]. simpl in Hrun.
      replace (num_layers - start_layer - - start_layer) with num_layers
        in Hrun by lia.
      replace (0 - - start_layer) with start_layer in Hrun by lia.
      apply returned_Ok. eexists s0, log2', _. split; [|split; [exact Hrun|]].
      * rewrite py_getitem_drop in Hs0 by lia. exact Hs0.
      * simpl. lia.
    + simpl. intros i Hi Hn. rewrite py_getitem_drop by lia.
      f_equal. lia.
Qed.

Lemma X11_witness :
  returned 1 55 4 [10; 20; 30; 40] = Ok 2 <->
  returned 0 55 (4 - 1) (drop (Z.to_nat 1) [10; 20; 30; 40]) = Ok (2 - 1).
Proof.
  apply (X11_drop_layers_before_start 1 55 4 [10; 20; 30; 40] 2).
  lia.
Defined.

(** X12.  A negative [start_layer] is not rejected: as long as it is a
    valid Python index of the table ([-len <= start_layer < 0]) and the
    table covers [num_layers], the call returns, having read the size of
    the start layer from the end of the table, and its answer is at least
    [start_layer] and below [max num_layers (start_layer + 1)]. *)
Theorem X12_negative_start_wraps
    start_layer max_memory num_layers layer_size_cache :
  - Z.of_nat (length layer_size_cache) <= start_layer < 0 ->
  num_layers <= Z.of_nat (length layer_size_cache) ->
  py_getitem layer_size_cache start_layer
  = layer_size_cache
      !! Z.to_nat (Z.of_nat (length layer_size_cache) + start_layer) /\
  exists end_layer,
    returned start_layer max_memory num_layers layer_size_cache = Ok end_layer /\
    start_layer <= end_layer < Z.max num_layers (start_layer + 1).
Proof.
  intros Hstart Hn. split.
  - unfold py_getitem.
    destruct (0 <=? start_layer) eqn:H0; [lia|].
    destruct (- Z.of_nat (length layer_size_cache) <=? start_layer) eqn:H1;
      [reflexivity | lia].
  - destruct (returned_total start_layer max_memory num_layers layer_size_cache)
      as [e Hret]; [lia | lia |].
    exists e. split; [exact Hret|]. apply returned_range in Hret. lia.
Qed.

Lemma X12_witness :
  py_getitem [10; 20; 30; 40] (-1)
  = [10; 20; 30; 40] !! Z.to_nat (Z.of_nat (length [10; 20; 30; 40]) + -1) /\
  exists end_layer,
    returned (-1) 55 4 [10; 20; 30; 40] = Ok end_layer /\
    -1 <= end_layer < Z.max 4 (-1 + 1).
Proof.
  apply (X12_negative_start_wraps (-1) 55 4 [10; 20; 30; 40]).
  - simpl. lia.
  - simpl. lia.
Defined.

(** ** More about the loader *)

Section LoaderMore.
Context {Payload Dtype : Type}.
Variable convert : Dtype -> Dtype -> Payload -> Payload.
Variable path_join : string -> string -> string.
Variable device_ok : string -> bool.

(** X13.  Whatever the index, the disk and the arguments are: a call leaves
    the disk as it was, hands at most one path to [safe_open], the one the
    index gives for the name, and never raises [KeyError], because the
    subscript [layer_file_cache[layer_name]] comes after the membership
    test. *)
Theorem X13_one_open_no_KeyError
    (layer_file_cache : gmap string string)
    (model_dir layer_name device : string) (dtype : Dtype)
    (w : world (Payload := Payload) (Dtype := Dtype)) :
  let out :=
    load_shard_tensor convert path_join device_ok layer_file_cache model_dir layer_name
      device dtype w in
  disk (fst out) = disk w /\
  (opened (fst out) = opened w \/
   exists file,
     layer_file_cache !! layer_name = Some file /\
     opened (fst out) = opened w ++ [path_join model_dir file]) /\
  forall key, snd out <> Raise (KeyError key).
Proof.
  unfold load_shard_tensor, dict_contains, dict_getitem.
  destruct (layer_file_cache !! layer_name) as [file|] eqn:Hfile.
  - rewrite bool_decide_true by eauto. cbn [negb].
    unfold bind, ret, raise, safe_open, get_tensor, to.
    destruct (device_ok device); cbn;
      [destruct (disk w !! path_join model_dir file) as [[shard|]|]; cbn;
       [destruct (shard !! layer_name) as [t|]; cbn | |] |];
      (split; [reflexivity|]); (split; [right; eauto | discriminate]).
  - rewrite bool_decide_false by (intros [? [=]]). cbn.
    split; [reflexivity|]. split; [by left | discriminate].
Qed.

(** X14.  Nothing is cached between calls: loading the same known name
    twice hands the same path to [safe_open] twice and gives the same
    result both times. *)
Theorem X14_second_load_opens_again
    (layer_file_cache : gmap string string)
    (model_dir layer_name device file : string) (dtype : Dtype)
    (w : world (Payload := Payload) (Dtype := Dtype)) :
  layer_file_cache !! layer_name = Some file ->
  let first :=
    load_shard_tensor convert path_join device_ok layer_file_cache model_dir layer_name
      device dtype w in
  let second :=
    load_shard_tensor convert path_join device_ok layer_file_cache model_dir layer_name
      device dtype (fst first) in
  snd second = snd first /\
  opened (fst second)
  = opened w ++ [path_join model_dir file; path_join model_dir file].
Proof.
  intros Hfile. unfold load_shard_tensor, dict_contains, dict_getitem.
  rewrite Hfile. rewrite bool_decide_true by eauto. cbn [negb].
  unfold bind, ret, raise, safe_open, get_tensor, to.
  destruct (device_ok device) eqn:Hdev; cbn;
    [destruct (disk w !! path_join model_dir file) as [[shard|]|] eqn:Hshard;
     cbn; [destruct (shard !! layer_name) as [t|] eqn:Ht; cbn | |] |];
    rewrite ?Hshard; cbn; rewrite ?Ht; cbn;
    (split; [reflexivity | by rewrite <- app_assoc]).
Qed.

(** X15.  The result depends on the disk only through the one file the
    index names: two disks that hold the same thing at that path give the
    same result, whatever else they hold and whatever was opened before. *)
Theorem X15_only_the_named_file_matters
    (layer_file_cache : gmap string string)
    (model_dir layer_name device file : string) (dtype : Dtype)
    (w1 w2 : world (Payload := Payload) (Dtype := Dtype)) :
  layer_file_cache !! layer_name = Some file ->
  disk w1 !! path_join model_dir file = disk w2 !! path_join model_dir file ->
  snd (load_shard_tensor convert path_join device_ok layer_file_cache model_dir
         layer_name device dtype w1)
  = snd (load_shard_tensor convert path_join device_ok layer_file_cache model_dir
           layer_name device dtype w2).
Proof.
  intros Hfile Hsame. unfold load_shard_tensor, dict_contains, dict_getitem.
  rewrite Hfile. rewrite bool_decide_true by eauto. cbn [negb].
  unfold bind, ret, raise, safe_open, get_tensor, to. rewrite Hsame.
  destruct (device_ok device); cbn; [|reflexivity].
  destruct (disk w2 !! path_join model_dir file) as [[shard|]|]; cbn;
    [|reflexivity|reflexivity].
  by destruct (shard !! layer_name).
Qed.

End LoaderMore.

Lemma X14_witness :
  let first :=
    load_shard_tensor keep_payload posix_join cpu_only example_index
      "models/Llama3.2-1b-instruct" "model.norm.weight" "cpu" float16
      example_world in
  let second :=
    load_shard_tensor keep_payload posix_join cpu_only example_index
      "models/Llama3.2-1b-instruct" "model.norm.weight" "cpu" float16
      (fst first) in
  snd second = snd first /\
  opened (fst second)
  = opened example_world
    ++ [posix_join "models/Llama3.2-1b-instruct"
          "model-00002-of-00002.safetensors";
        posix_join "models/Llama3.2-1b-instruct"
          "model-00002-of-00002.safetensors"].
Proof.
  apply (X14_second_load_opens_again keep_payload posix_join cpu_only
           example_index
           "models/Llama3.2-1b-instruct" "model.norm.weight" "cpu"
           "model-00002-of-00002.safetensors" float16 example_world).
  vm_compute. reflexivity.
Defined.

Lemma X15_witness :
  snd (load_shard_tensor keep_payload posix_join cpu_only example_index
         "models/Llama3.2-1b-instruct" "model.norm.weight" "cpu" float16
         example_world)
  = snd (load_shard_tensor keep_payload posix_join cpu_only example_index
           "models/Llama3.2-1b-instruct" "model.norm.weight" "cpu" float16
           (World (<[ "models/other.safetensors" := OtherFile ]>
                     (disk example_world))
              ["models/other.safetensors"])).
Proof.
  apply (X15_only_the_named_file_matters keep_payload posix_join cpu_only
           example_index
           "models/Llama3.2-1b-instruct" "model.norm.weight" "cpu"
           "model-00002-of-00002.safetensors" float16).
  - vm_compute. reflexivity.
  - vm_compute. reflexivity.
Defined.

(** ** The causal mask *)

Lemma py_getitem_short (l : list Z) :
  (length l < 2)%nat -> py_getitem l 1 = None.
Proof. destruct l as [|a [|b l]]; simpl; [reflexivity | reflexivity | lia]. Qed.

Section CausalMaskFacts.
Context {Config Sliding Tensor Dtype Device Mask : Type}.
Variable attn_implementation : Config -> string.
Variable sliding_window : Config -> option Sliding.
Variable shape : Tensor -> list Z.
Variable dtype_of : Tensor -> Dtype.
Variable device_of : Tensor -> Device.
Variable ignore_causal_mask_sdpa :
  option Mask -> Tensor -> Z -> Sliding -> bool -> result bool.
Variable prepare_4d_causal_attention_mask_with_cache_position :
  option Mask -> Z -> Z -> Dtype -> Device -> Tensor -> Z -> Config ->
  option unit -> Mask.


(** X17.  The function returns [None] exactly when the implementation is
    ["sdpa"], the config has a [sliding_window] attribute, and the library's
    check, called with no attention mask, a past length of 0, that sliding
    window and [is_training=False], returns [True]. *)
Theorem X17_None_only_by_the_sdpa_shortcut
    (config : Config) (input_tensor cache_position : Tensor)
    (calls : list library_call) :
  snd (update_causal_mask attn_implementation sliding_window shape dtype_of
         device_of ignore_causal_mask_sdpa
         prepare_4d_causal_attention_mask_with_cache_position
         config input_tensor cache_position calls)
  = Ok None <->
  attn_implementation config = "sdpa" /\
  exists sliding,
    sliding_window config = Some sliding /\
    ignore_causal_mask_sdpa None input_tensor 0 sliding false = Ok true.
Proof.
  unfold update_causal_mask.
  assert (forall calls',
             snd ((let* sequence_length := shape_item shape input_tensor 1 in
                   let* target_length := shape_item shape input_tensor 1 in
                   let* batch_size := shape_item shape input_tensor 0 in
                   let* mask :=
                     call_prepare_4d_causal_attention_mask
                       prepare_4d_causal_attention_mask_with_cache_position
                       None sequence_length target_length
                       (dtype_of input_tensor) (device_of input_tensor)
                       cache_position batch_size config None in
                   ret (Some mask)) calls')
             <> Ok None) as Hbuild.
  { intros calls'.
    unfold bind, shape_item, call_prepare_4d_causal_attention_mask, ret, raise.
    destruct (py_getitem (shape input_tensor) 1); [|discriminate].
    destruct (py_getitem (shape input_tensor) 0); discriminate. }
  destruct (String.eqb (attn_implementation config) "sdpa") eqn:Himpl.
  - apply String.eqb_eq in Himpl.
    unfold bind at 1. unfold getattr_sliding_window.
    destruct (sliding_window config) as [sliding|] eqn:Hsliding; cbn.
    + unfold bind at 1. unfold call_ignore_causal_mask_sdpa.
      destruct (ignore_causal_mask_sdpa None input_tensor 0 sliding false)
        as [[|]|ex] eqn:Hignore; cbn.
      * split; [eauto | reflexivity].
      * split; [intros H; by apply Hbuild in H|].
        intros (_ & sliding' & [= <-] & Hno). congruence.
      * split; [discriminate|].
        intros (_ & sliding' & [= <-] & Hno). congruence.
    + split; [discriminate|]. intros (_ & sliding' & Hno & _). discriminate.
  - apply String.eqb_neq in Himpl.
    split; [|intros [? _]; contradiction]. intros H. by apply Hbuild in H.
Qed.

(** X18.  An input of fewer than two dimensions never gets a mask: the mask
    builder is not called and the result is not a mask, whatever the
    config and the library's check do; with an implementation other than
    ["sdpa"] the call raises [IndexError] at [input_tensor.shape[1]]
    without any library call. *)
Theorem X18_input_of_low_rank
    (config : Config) (input_tensor cache_position : Tensor)
    (calls : list library_call) :
  (length (shape input_tensor) < 2)%nat ->
  let out :=
    update_causal_mask attn_implementation sliding_window shape dtype_of
      device_of ignore_causal_mask_sdpa
      prepare_4d_causal_attention_mask_with_cache_position
      config input_tensor cache_position calls in
  (forall mask, snd out <> Ok (Some mask)) /\
  (fst out = calls \/ fst out = calls ++ [IgnoreCausalMaskSdpa]) /\
  (attn_implementation config <> "sdpa" -> out = (calls, Raise IndexError)).
Proof.
  intros Hrank. apply py_getitem_short in Hrank. unfold update_causal_mask.
  destruct (String.eqb (attn_implementation config) "sdpa") eqn:Himpl.
  - apply String.eqb_eq in Himpl.
    unfold bind at 1. unfold getattr_sliding_window.
    destruct (sliding_window config) as [sliding|]; cbn.
    + unfold bind at 1. unfold call_ignore_causal_mask_sdpa.
      destruct (ignore_causal_mask_sdpa None input_tensor 0 sliding false)
        as [[|]|ex]; cbn.
      * split; [discriminate|]. split; [by right | contradiction].
      * unfold bind, shape_item, raise. rewrite Hrank. cbn.
        split; [discriminate|]. split; [by right | contradiction].
      * split; [discriminate|]. split; [by right | contradiction].
    + split; [discriminate|]. split; [by left | contradiction].
  - unfold bind, shape_item, raise. rewrite Hrank. cbn.
    split; [discriminate|]. split; [by left | reflexivity].
Qed.

End CausalMaskFacts.


Lemma X18_witness :
  let out :=
    update_causal_mask (fun config : string => config)
      (fun _ => Some tt)
      (fun t : list Z => t) (fun _ => float16) (fun _ => "cpu")
      (fun _ _ _ _ _ => Raise IndexError)
      (fun (_ : option (Z * Z * Z)) s t _ _ _ b _ _ => (s, t, b))
      "sdpa" [9] [9] [] in
  (forall mask, snd out <> Ok (Some mask)) /\
  (fst out = [] \/ fst out = [] ++ [IgnoreCausalMaskSdpa]) /\
  ("sdpa" <> "sdpa" -> out = ([], Raise IndexError)).
Proof.
  apply (X18_input_of_low_rank (fun config : string => config)
           (fun _ => Some tt) (fun t : list Z => t) (fun _ => float16)
           (fun _ => "cpu") (fun _ _ _ _ _ => Raise IndexError)
           (fun (_ : option (Z * Z * Z)) s t _ _ _ b _ _ => (s, t, b))
           "sdpa" [9] [9] []).
  simpl. lia.
Defined.

(** ** The error paths at work *)

Example load_on_rejected_device :
  load_shard_tensor keep_payload posix_join cpu_only example_index
    "models/Llama3.2-1b-instruct" "model.norm.weight" "toaster" float16
    example_world
  = (World (disk example_world)
       ["models/Llama3.2-1b-instruct/model-00002-of-00002.safetensors"],
     Raise (SafetensorError "toaster")).
Proof. vm_compute. reflexivity. Qed.

Example load_of_a_file_that_is_no_shard :
  snd (load_shard_tensor keep_payload posix_join cpu_only example_index
         "models/Llama3.2-1b-instruct" "model.norm.weight" "cpu" float16
         (World {[ "models/Llama3.2-1b-instruct/model-00002-of-00002.safetensors"
                   := OtherFile ]} []))
  = Raise (SafetensorError
             "models/Llama3.2-1b-instruct/model-00002-of-00002.safetensors").
Proof. vm_compute. reflexivity. Qed.

Example sdpa_config_without_sliding_window :
  update_causal_mask (fun config : string => config)
    (fun _ => @None unit)
    (fun t : list Z => t) (fun _ => float16) (fun _ => "cpu")
    (fun _ _ _ _ _ => Ok true)
    (fun (_ : option (Z * Z * Z)) s t _ _ _ b _ _ => (s, t, b))
    "sdpa" [1; 9; 2048] [9] []
  = ([], Raise (AttributeError "sliding_window")).
Proof. reflexivity. Qed.
